(** * Subdomain redirects of [essential_extensions]

    A shallow embedding of

      - [essential_extensions/models/SubdomainRedirect.py]
        (the [SubdomainRedirect] model: [clean], [get_redirect_url],
        [get_redirect_for_subdomain]), and
      - [essential_extensions/middleware.py]
        ([SubdomainRedirectMiddleware.__call__]),

    followed by the properties of the redirect resolver and of the request
    interceptor.

    Strings.  A Python [str] is modelled by [string]; a character is one of
    the code points 0..255, and the built-ins used by the code ([lower],
    [isalnum], [split], [rsplit], [endswith], [in]) are given with the
    behaviour CPython has on these code points.

    Exceptions.  A computation that may raise returns a [result]; [clean],
    which assigns to [self.subdomain] before it may raise, runs in a monad
    that threads [self] and keeps the assignment when an exception leaves
    the method. *)

From Stdlib Require Import String Ascii List Bool Arith NArith ZArith Lia.
Import ListNotations.

Local Open Scope list_scope.
Local Open Scope string_scope.

(** ** Python built-ins on [str] *)

Module Py.

Definition in_range (lo hi n : N) : bool := ((lo <=? n) && (n <=? hi))%N.

(** [str.lower] on one character: A-Z, and the upper-case letters of the
    Latin-1 block (U+00C0..U+00D6, U+00D8..U+00DE), move up by 32. *)
Definition lower_char (c : ascii) : ascii :=
  let n := N_of_ascii c in
  if in_range 65 90 n || in_range 192 214 n || in_range 216 222 n
  then ascii_of_N (n + 32)
  else c.

(** [s.lower()] *)
Fixpoint lower (s : string) : string :=
  match s with
  | EmptyString => EmptyString
  | String c s' => String (lower_char c) (lower s')
  end.

(** One character of [str.isalnum]: alphabetic, decimal, digit or
    numeric.  Below 128 these are 0-9, A-Z, a-z; in 128..255 the letters,
    the superscript digits and the vulgar fractions. *)
Definition isalnum_char (c : ascii) : bool :=
  let n := N_of_ascii c in
  in_range 48 57 n || in_range 65 90 n || in_range 97 122 n
  || (n =? 170)%N || (n =? 178)%N || (n =? 179)%N || (n =? 181)%N
  || (n =? 185)%N || (n =? 186)%N || in_range 188 190 n
  || in_range 192 214 n || in_range 216 246 n || in_range 248 255 n.

Fixpoint all_chars (p : ascii -> bool) (s : string) : bool :=
  match s with
  | EmptyString => true
  | String c s' => p c && all_chars p s'
  end.

(** [s.isalnum()]: every character is alphanumeric and there is at least
    one character. *)
Definition isalnum (s : string) : bool :=
  match s with
  | EmptyString => false
  | _ => all_chars isalnum_char s
  end.

(** [c in s] for a one-character string [c]. *)
Fixpoint contains (c : ascii) (s : string) : bool :=
  match s with
  | EmptyString => false
  | String d s' => Ascii.eqb d c || contains c s'
  end.

(** [bool(s)] *)
Definition truthy (s : string) : bool := negb (s =? "").

(** [x in l] for a list of strings. *)
Fixpoint in_list (x : string) (l : list string) : bool :=
  match l with
  | [] => false
  | y :: l' => (x =? y) || in_list x l'
  end.

(** [s.split(sep)] for a one-character separator (both call sites split
    on a single character).  The result is never empty. *)
Fixpoint split (sep : ascii) (s : string) : list string :=
  match s with
  | EmptyString => [EmptyString]
  | String c s' =>
      if Ascii.eqb c sep then EmptyString :: split sep s'
      else match split sep s' with
           | p :: ps => String c p :: ps
           | [] => [String c EmptyString]
           end
  end.

(** [l[0]] on the result of a split, which always has a first element. *)
Definition item0 (l : list string) : string := hd EmptyString l.

(** [s[n:]] *)
Fixpoint drop (n : nat) (s : string) : string :=
  match n, s with
  | O, _ => s
  | S _, EmptyString => EmptyString
  | S n', String _ s' => drop n' s'
  end.

(** [s[:n]] *)
Definition take (n : nat) (s : string) : string := substring 0 n s.

(** [s.endswith(suffix)] *)
Definition endswith (s suffix : string) : bool :=
  (String.length suffix <=? String.length s)%nat
  && (drop (String.length s - String.length suffix) s =? suffix).

(** Search of [sub] at the start positions [i], [i-1], ..., [0]. *)
Fixpoint rfind_from (sub s : string) (i : nat) : option nat :=
  if prefix sub (drop i s) then Some i
  else match i with
       | O => None
       | S j => rfind_from sub s j
       end.

(** [s.rfind(sub)]: the highest index at which [sub] occurs. *)
Definition rfind (sub s : string) : option nat :=
  if (String.length s <? String.length sub)%nat then None
  else rfind_from sub s (String.length s - String.length sub).

(** [s.rsplit(sep, 1)] for a non-empty [sep]: one split, at the last
    occurrence of [sep]. *)
Definition rsplit1 (sep s : string) : list string :=
  match rfind sep s with
  | Some i => [take i s; drop (i + String.length sep) s]
  | None => [s]
  end.

(** One character of [str.isspace]: the ASCII white space and separators,
    and U+0085 and U+00A0. *)
Definition isspace_char (c : ascii) : bool :=
  let n := N_of_ascii c in
  in_range 9 13 n || in_range 28 32 n || (n =? 133)%N || (n =? 160)%N.

(** [s.lstrip()] *)
Fixpoint lstrip (s : string) : string :=
  match s with
  | EmptyString => EmptyString
  | String c s' => if isspace_char c then lstrip s' else s
  end.

(** [s.rstrip()] *)
Fixpoint rstrip (s : string) : string :=
  match s with
  | EmptyString => EmptyString
  | String c s' =>
      match rstrip s' with
      | EmptyString => if isspace_char c then EmptyString
                       else String c EmptyString
      | String d r => String c (String d r)
      end
  end.

(** [s.strip()] *)
Definition strip (s : string) : string := rstrip (lstrip s).

(** [s.startswith(p)] *)
Definition startswith (s p : string) : bool := prefix p s.

(** [d.get(key)] on a dict with string keys and values, kept as the list
    of its items. *)
Fixpoint dict_get (key : string) (d : list (string * string))
    : option string :=
  match d with
  | [] => None
  | (k, v) :: d' => if k =? key then Some v else dict_get key d'
  end.

(** [bool(v)] for a value that is [None] or a string. *)
Definition truthy_opt (v : option string) : bool :=
  match v with
  | Some s => truthy s
  | None => false
  end.

(** [str(v)] for a value that is [None] or a string. *)
Definition str_opt (v : option string) : string :=
  match v with
  | Some s => s
  | None => "None"
  end.

(** *** [urllib.parse.quote]

    The characters [quote] never encodes: ASCII letters, digits and
    "_.-~". *)
Definition always_safe (b : N) : bool :=
  in_range 65 90 b || in_range 97 122 b || in_range 48 57 b
  || (b =? 95)%N || (b =? 46)%N || (b =? 45)%N || (b =? 126)%N.

(** A byte [quote] keeps as it is: an ASCII byte that is always safe or
    listed in [safe]. *)
Definition kept (safe : string) (b : N) : bool :=
  (b <? 128)%N && (always_safe b || contains (ascii_of_N b) safe).

Definition hex_digit (n : N) : ascii :=
  ascii_of_N (if (n <? 10)%N then 48 + n else 55 + n).

(** "%XX", with upper-case digits. *)
Definition percent (b : N) : string :=
  String "%" (String (hex_digit (b / 16)) (String (hex_digit (b mod 16)) "")).

(** The UTF-8 bytes of a character of the code points 0..255. *)
Definition utf8 (c : ascii) : list N :=
  let n := N_of_ascii c in
  if (n <? 128)%N then [n] else [192 + n / 64; 128 + n mod 64]%N.

Fixpoint quote_bytes (safe : string) (bytes : list N) : string :=
  match bytes with
  | [] => EmptyString
  | b :: bytes' =>
      (if kept safe b then String (ascii_of_N b) EmptyString else percent b)
        ++ quote_bytes safe bytes'
  end.

(** [quote(s, safe=safe)] *)
Fixpoint quote (s safe : string) : string :=
  match s with
  | EmptyString => EmptyString
  | String c s' => quote_bytes safe (utf8 c) ++ quote s' safe
  end.

End Py.

(** ** Exceptions *)

Inductive exn : Type :=
| ValidationError (message : string)
| DoesNotExist
| MultipleObjectsReturned.

Inductive result (A : Type) : Type :=
| Ok (a : A)
| Raise (e : exn).
Arguments Ok {A} a.
Arguments Raise {A} e.

(** ** The model [SubdomainRedirect] *)

(** The object a generic foreign key resolves to.  [get_absolute_url] is
    [None] when the object has no such attribute, and otherwise what the
    method returns. *)
Record ContentObject : Type := {
  get_absolute_url : option string
}.

Module SubdomainRedirect.

Definition REDIRECT_TYPE_FULL : string := "full".
Definition REDIRECT_TYPE_PATH_PRESERVE : string := "path_preserve".

(** A row of the table.  [content_object] is the generic foreign key
    already resolved ([None] when [content_type] or [object_id] is null
    or no such row exists); the two timestamps are read by no code
    below and are left out. *)
Record t : Type := {
  content_type : option N;
  object_id : option N;
  content_object : option ContentObject;
  subdomain : string;
  redirect_type : string;
  redirect_path : string;
  is_active : bool
}.

Definition set_subdomain (v : string) (self : t) : t :=
  {| content_type := content_type self;
     object_id := object_id self;
     content_object := content_object self;
     subdomain := v;
     redirect_type := redirect_type self;
     redirect_path := redirect_path self;
     is_active := is_active self |}.

Definition set_content_object (v : option ContentObject) (self : t) : t :=
  {| content_type := content_type self;
     object_id := object_id self;
     content_object := v;
     subdomain := subdomain self;
     redirect_type := redirect_type self;
     redirect_path := redirect_path self;
     is_active := is_active self |}.

(** *** Methods that assign to [self] and may raise *)

Definition M (A : Type) : Type := t -> t * result A.

Definition ret {A} (a : A) : M A := fun self => (self, Ok a).

Definition bind {A B} (m : M A) (k : A -> M B) : M B :=
  fun self =>
    match m self with
    | (self', Ok a) => k a self'
    | (self', Raise e) => (self', Raise e)
    end.

Definition raise {A} (e : exn) : M A := fun self => (self, Raise e).

Definition get_self : M t := fun self => (self, Ok self).

Definition assign_subdomain (v : string) : M unit :=
  fun self => (set_subdomain v self, Ok tt).

Definition when (b : bool) (m : M unit) : M unit := if b then m else ret tt.

Declare Scope method_scope.
Delimit Scope method_scope with method.
Notation "x <- m ;; k" := (bind m (fun x => k))
  (at level 61, m at next level, right associativity) : method_scope.
Notation "m ;; k" := (bind m (fun _ => k))
  (at level 61, right associativity) : method_scope.

Definition msg_subdomain_chars : string :=
  "Subdomain can only contain letters, numbers, and hyphens".
Definition msg_subdomain_length : string :=
  "Subdomain must be at least 2 characters long".
Definition msg_full_requires_path : string :=
  "Full redirect requires a redirect path".
Definition msg_preserve_forbids_path : string :=
  "Path preserving redirect should not have a redirect path".

(** [clean(self)] *)
Definition clean : M unit :=
  (self <- get_self ;;
   (if Py.truthy (subdomain self) then
      assign_subdomain
        (Py.lower (Py.item0 (Py.split "." (subdomain self)))) ;;
      self <- get_self ;;
      when (negb (Py.isalnum (subdomain self))
            && negb (Py.contains "-" (subdomain self)))
           (raise (ValidationError msg_subdomain_chars)) ;;
      when (String.length (subdomain self) <? 2)%nat
           (raise (ValidationError msg_subdomain_length))
    else ret tt) ;;
   self <- get_self ;;
   when ((redirect_type self =? REDIRECT_TYPE_FULL)
         && negb (Py.truthy (redirect_path self)))
        (raise (ValidationError msg_full_requires_path)) ;;
   when ((redirect_type self =? REDIRECT_TYPE_PATH_PRESERVE)
         && Py.truthy (redirect_path self))
        (raise (ValidationError msg_preserve_forbids_path)))%method.

(** [get_redirect_url(self, request_path)] *)
Definition get_redirect_url (self : t) (request_path : string) : string :=
  if redirect_type self =? REDIRECT_TYPE_FULL then redirect_path self
  else request_path.

(** [cls.objects.get(subdomain=..., is_active=...)] over the rows of the
    table: the row that matches when there is exactly one, [DoesNotExist]
    when there is none, [MultipleObjectsReturned] otherwise. *)
Definition matching (subdomain_ : string) (is_active_ : bool) (row : t)
    : bool :=
  (subdomain row =? subdomain_) && Bool.eqb (is_active row) is_active_.

Definition objects_get (objects : list t) (subdomain_ : string)
    (is_active_ : bool) : result t :=
  match filter (matching subdomain_ is_active_) objects with
  | [] => Raise DoesNotExist
  | [row] => Ok row
  | _ :: _ :: _ => Raise MultipleObjectsReturned
  end.

(** [get_redirect_for_subdomain(cls, subdomain)]; only [DoesNotExist] is
    caught. *)
Definition get_redirect_for_subdomain (objects : list t)
    (subdomain_ : string) : result (option t) :=
  match objects_get objects (Py.lower subdomain_) true with
  | Ok row => Ok (Some row)
  | Raise DoesNotExist => Ok None
  | Raise e => Raise e
  end.

(** The column is declared [unique=True]. *)
Definition unique_subdomains (objects : list t) : Prop :=
  NoDup (map subdomain objects).

End SubdomainRedirect.

(** ** The request interceptor *)

(** [django.conf.settings], the one attribute the interceptor reads.
    [None]: the attribute is not set. *)
Record Settings : Type := {
  MAIN_DOMAIN : option string
}.

(** [getattr(settings, name, default)] *)
Definition getattr {A} (attribute : option A) (default : A) : A :=
  match attribute with
  | Some v => v
  | None => default
  end.

(** What the interceptor reads of a request: the values returned by
    [request.get_host()] and [request.is_secure()], and [request.path]. *)
Record HttpRequest : Type := {
  get_host : string;
  path : string;
  is_secure : bool
}.

(** A response.  The two redirect classes keep [redirect_to], the string
    they are built with. *)
Inductive HttpResponse : Type :=
| HttpResponsePermanentRedirect (redirect_to : string)
| HttpResponseRedirect (redirect_to : string)
| HttpResponseOther (status : Z) (content : string).

Definition status_code (response : HttpResponse) : Z :=
  match response with
  | HttpResponsePermanentRedirect _ => 301
  | HttpResponseRedirect _ => 302
  | HttpResponseOther status _ => status
  end.

(** [django.utils.encoding.iri_to_uri(iri)] for a string. *)
Definition iri_to_uri (iri : string) : string :=
  Py.quote iri "/#%[]=:;$&()+,!?*@'~".

(** The [Location] header of a response: a redirect class sets it to
    [iri_to_uri(redirect_to)]. *)
Definition Location (response : HttpResponse) : option string :=
  match response with
  | HttpResponsePermanentRedirect to => Some (iri_to_uri to)
  | HttpResponseRedirect to => Some (iri_to_uri to)
  | HttpResponseOther _ _ => None
  end.

(** [django.shortcuts.redirect(to, permanent=...)] for a URL string (one
    with a "/" in it, which Django takes as the URL itself). *)
Definition redirect (to : string) (permanent : bool) : HttpResponse :=
  if permanent then HttpResponsePermanentRedirect to
  else HttpResponseRedirect to.

Module SubdomainRedirectMiddleware.

(** Line 110: [request.get_host().split(':')[0].lower()] *)
Definition hostname_of (request : HttpRequest) : string :=
  Py.lower (Py.item0 (Py.split ":" (get_host request))).

(** Line 113: [getattr(settings, 'MAIN_DOMAIN', 'example.com')] *)
Definition main_domain_of (settings : Settings) : string :=
  getattr (MAIN_DOMAIN settings) "example.com".

(** Line 117: [hostname.rsplit('.' + main_domain, 1)[0]] *)
Definition subdomain_of (main_domain hostname : string) : string :=
  Py.item0 (Py.rsplit1 ("." ++ main_domain) hostname).

(** Lines 126-134, "Determine the redirect path". *)
Definition determine_redirect_path (redirect_obj : SubdomainRedirect.t)
    (request : HttpRequest) : string :=
  if SubdomainRedirect.redirect_type redirect_obj
     =? SubdomainRedirect.REDIRECT_TYPE_FULL
  then
    match SubdomainRedirect.content_object redirect_obj with
    | Some content_object =>
        match get_absolute_url content_object with
        | Some absolute_url => absolute_url
        | None => SubdomainRedirect.redirect_path redirect_obj
        end
    | None => SubdomainRedirect.redirect_path redirect_obj
    end
  else path request.

(** Lines 137-138. *)
Definition protocol_of (request : HttpRequest) : string :=
  if is_secure request then "https" else "http".

Definition redirect_url_of (main_domain : string)
    (redirect_obj : SubdomainRedirect.t) (request : HttpRequest) : string :=
  protocol_of request ++ "://" ++ main_domain
    ++ determine_redirect_path redirect_obj request.

(** [__call__(self, request)].  [objects] is the table of redirects and
    [get_response] the rest of the middleware chain. *)
Definition __call__ (settings : Settings)
    (objects : list SubdomainRedirect.t)
    (get_response : HttpRequest -> result HttpResponse)
    (request : HttpRequest) : result HttpResponse :=
  let hostname := hostname_of request in
  let main_domain := main_domain_of settings in
  if Py.endswith hostname ("." ++ main_domain) then
    let subdomain := subdomain_of main_domain hostname in
    if Py.truthy subdomain && negb (Py.in_list subdomain [""; "www"]) then
      match SubdomainRedirect.get_redirect_for_subdomain objects subdomain with
      | Raise e => Raise e
      | Ok (Some redirect_obj) =>
          Ok (redirect (redirect_url_of main_domain redirect_obj request) true)
      | Ok None => get_response request
      end
    else get_response request
  else get_response request.

End SubdomainRedirectMiddleware.

(** ** Example data *)

Definition example_settings : Settings := {| MAIN_DOMAIN := None |}.

Definition rule (subdomain_ redirect_type_ redirect_path_ : string)
    (is_active_ : bool) (content_object_ : option ContentObject)
    : SubdomainRedirect.t :=
  {| SubdomainRedirect.content_type := None;
     SubdomainRedirect.object_id := None;
     SubdomainRedirect.content_object := content_object_;
     SubdomainRedirect.subdomain := subdomain_;
     SubdomainRedirect.redirect_type := redirect_type_;
     SubdomainRedirect.redirect_path := redirect_path_;
     SubdomainRedirect.is_active := is_active_ |}.

Definition downstream (request : HttpRequest) : result HttpResponse :=
  Ok (HttpResponseOther 200 (path request)).

Import SubdomainRedirect SubdomainRedirectMiddleware.

Definition shop_rule : SubdomainRedirect.t :=
  rule "shop" "full" "/store/" true None.

Definition blog_rule : SubdomainRedirect.t :=
  rule "blog" "path_preserve" "" false None.

Definition example_objects : list SubdomainRedirect.t :=
  [shop_rule; blog_rule].

Definition request_to (host : string) : HttpRequest :=
  {| get_host := host; path := "/x/"; is_secure := true |}.

Definition request_a_b : HttpRequest :=
  {| get_host := "a.b.example.com"; path := "/"; is_secure := false |}.

(** ** Vocabulary of the properties *)

(** The string the interceptor hands to the resolver (line 117 applied to
    lines 110 and 113). *)
Definition candidate_of (settings : Settings) (request : HttpRequest)
    : string :=
  subdomain_of (main_domain_of settings) (hostname_of request).

(** Line 116: the request is for a host under the main domain. *)
Definition under_main_domain (settings : Settings) (request : HttpRequest)
    : bool :=
  Py.endswith (hostname_of request) ("." ++ main_domain_of settings).

(** The canonical location of the linked object: present when a target is
    attached and has a [get_absolute_url]. *)
Definition canonical_location (self : SubdomainRedirect.t) : option string :=
  match content_object self with
  | Some target => get_absolute_url target
  | None => None
  end.

Definition page (url : string) : ContentObject :=
  {| get_absolute_url := Some url |}.

Definition bare_object : ContentObject := {| get_absolute_url := None |}.

(** The first dot-separated label of [s], lowercased: the value [clean]
    assigns to [self.subdomain]. *)
Definition normalized (s : string) : string :=
  Py.lower (Py.item0 (Py.split "." s)).

(** The two combinations of [redirect_type] and [redirect_path] that the
    data model forbids. *)
Definition inconsistent (self : SubdomainRedirect.t) : Prop :=
  (redirect_type self = REDIRECT_TYPE_FULL /\ redirect_path self = "")
  \/ (redirect_type self = REDIRECT_TYPE_PATH_PRESERVE
      /\ redirect_path self <> "").

Definition raises_validation_error (outcome : result unit) : Prop :=
  exists message, outcome = Raise (ValidationError message).

Definition raises_subdomain_error (outcome : result unit) : Prop :=
  outcome = Raise (ValidationError msg_subdomain_chars)
  \/ outcome = Raise (ValidationError msg_subdomain_length).

Definition raises_configuration_error (outcome : result unit) : Prop :=
  outcome = Raise (ValidationError msg_full_requires_path)
  \/ outcome = Raise (ValidationError msg_preserve_forbids_path).

(** The outcome of lines 88-93 of [clean] on [self]. *)
Definition configuration_outcome (self : SubdomainRedirect.t) : result unit :=
  if (redirect_type self =? REDIRECT_TYPE_FULL)
     && negb (Py.truthy (redirect_path self))
  then Raise (ValidationError msg_full_requires_path)
  else if (redirect_type self =? REDIRECT_TYPE_PATH_PRESERVE)
          && Py.truthy (redirect_path self)
  then Raise (ValidationError msg_preserve_forbids_path)
  else Ok tt.

(** A subdomain made of letters, numbers and hyphens only. *)
Definition letters_numbers_hyphens (s : string) : bool :=
  Py.all_chars (fun c => Py.isalnum_char c || Ascii.eqb c "-") s.

(** ** The admin IP restriction *)

(** The settings [AdminIPRestrictionMiddleware] reads; [None]: not set. *)
Record AdminSettings : Type := {
  ADMIN_ALLOWED_IPS : option (list string);
  ADMIN_ALLOWED_NETWORKS : option (list string);
  ADMIN_IP_RESTRICTION_ENABLED : option bool
}.

(** A request together with its [META] dict. *)
Record WSGIRequest : Type := {
  base : HttpRequest;
  META : list (string * string)
}.

(** What the middleware uses of the standard module [ipaddress]:
    [ip_address(v)] and [ip_network(v, strict=False)], [None] standing for
    [ValueError]; [==] on addresses; [address in network]. *)
Class IPAddress : Type := {
  address : Type;
  network : Type;
  ip_address : option string -> option address;
  ip_network : string -> option network;
  address_eqb : address -> address -> bool;
  network_contains : network -> address -> bool
}.

(** The outcome of the middleware: [PermissionDenied] raised by the
    middleware itself, or what the rest of the chain returned or raised. *)
Inductive admin_result : Type :=
| PermissionDenied (message : string)
| Returned (response : result HttpResponse).

Module AdminIPRestrictionMiddleware.

Section WithIPAddress.

Context {ipaddress : IPAddress}.

(** The attributes [__init__] sets. *)
Record middleware : Type := {
  allowed_ips : list string;
  allowed_networks : list string;
  allowed_ip_objects : list address;
  allowed_network_objects : list network
}.

(** The two loops of [__init__]: the entries that parse, in order. *)
Fixpoint parse_each {A : Type} (parse : string -> option A)
    (entries : list string) : list A :=
  match entries with
  | [] => []
  | entry :: entries' =>
      match parse entry with
      | Some object => object :: parse_each parse entries'
      | None => parse_each parse entries'
      end
  end.

(** [__init__(self, get_response)] *)
Definition __init__ (settings : AdminSettings) : middleware :=
  let allowed_ips_ := getattr (ADMIN_ALLOWED_IPS settings) [] in
  let allowed_networks_ := getattr (ADMIN_ALLOWED_NETWORKS settings) [] in
  {| allowed_ips := allowed_ips_;
     allowed_networks := allowed_networks_;
     allowed_ip_objects :=
       parse_each (fun ip => ip_address (Some ip)) allowed_ips_;
     allowed_network_objects := parse_each ip_network allowed_networks_ |}.

(** [get_client_ip(self, request)]; the two logging calls change nothing
    and are left out. *)
Definition get_client_ip (request : WSGIRequest) : option string :=
  let cf_ip := Py.dict_get "HTTP_CF_CONNECTING_IP" (META request) in
  let x_forwarded_for := Py.dict_get "HTTP_X_FORWARDED_FOR" (META request) in
  let real_ip := Py.dict_get "HTTP_X_REAL_IP" (META request) in
  let remote_addr := Py.dict_get "REMOTE_ADDR" (META request) in
  if Py.truthy_opt cf_ip then cf_ip
  else if Py.truthy_opt x_forwarded_for
  then option_map (fun forwarded => Py.strip (Py.item0 (Py.split "," forwarded)))
                  x_forwarded_for
  else if Py.truthy_opt real_ip then real_ip
  else remote_addr.

(** [is_ip_allowed(self, client_ip)] *)
Definition is_ip_allowed (self : middleware) (client_ip : option string)
    : bool :=
  match ip_address client_ip with
  | None => false
  | Some client_ip_obj =>
      if existsb (address_eqb client_ip_obj) (allowed_ip_objects self)
      then true
      else existsb (fun net => network_contains net client_ip_obj)
                   (allowed_network_objects self)
  end.

Definition msg_not_configured (client_ip : option string) : string :=
  "Admin access is restricted by IP. Your IP address ("
    ++ Py.str_opt client_ip ++ ") is not authorized. ".

Definition msg_not_authorized (client_ip : option string) : string :=
  "Your IP address (" ++ Py.str_opt client_ip
    ++ ") is not authorized to access the admin interface.".

(** [__call__(self, request)] *)
Definition __call__ (settings : AdminSettings) (self : middleware)
    (get_response : WSGIRequest -> result HttpResponse)
    (request : WSGIRequest) : admin_result :=
  if Py.startswith (path (base request)) "/admin/" then
    if negb (getattr (ADMIN_IP_RESTRICTION_ENABLED settings) true)
    then Returned (get_response request)
    else
      let client_ip := get_client_ip request in
      if match allowed_ips self with [] => true | _ :: _ => false end
         && match allowed_networks self with [] => true | _ :: _ => false end
      then PermissionDenied (msg_not_configured client_ip)
      else if negb (is_ip_allowed self client_ip)
      then PermissionDenied (msg_not_authorized client_ip)
      else Returned (get_response request)
  else Returned (get_response request).

End WithIPAddress.

End AdminIPRestrictionMiddleware.

(** *** Dotted-quad addresses, for the examples

    An instance of [IPAddress] that knows IPv4 only: an address is four
    decimal octets without leading zeros, a network an address with an
    optional prefix length. *)

Fixpoint decimal_value (s : string) (acc : N) : option N :=
  match s with
  | EmptyString => Some acc
  | String c s' =>
      let n := N_of_ascii c in
      if Py.in_range 48 57 n then decimal_value s' (acc * 10 + (n - 48))%N
      else None
  end.

Definition octet (s : string) : option N :=
  if (1 <=? String.length s)%nat && (String.length s <=? 3)%nat
     && negb ((2 <=? String.length s)%nat && prefix "0" s)
  then match decimal_value s 0 with
       | Some v => if (v <=? 255)%N then Some v else None
       | None => None
       end
  else None.

Definition ipv4_address (v : option string) : option N :=
  match v with
  | None => None
  | Some s =>
      match Py.split "." s with
      | [a; b; c; d] =>
          match octet a, octet b, octet c, octet d with
          | Some a', Some b', Some c', Some d' =>
              Some (((a' * 256 + b') * 256 + c') * 256 + d')%N
          | _, _, _, _ => None
          end
      | _ => None
      end
  end.

Definition ipv4_network (s : string) : option (N * N) :=
  match Py.split "/" s with
  | [a] => option_map (fun x => (x, 0%N)) (ipv4_address (Some a))
  | [a; p] =>
      match ipv4_address (Some a), decimal_value p 0 with
      | Some x, Some n =>
          if negb (p =? "") && (n <=? 32)%N then Some (x, 32 - n)%N else None
      | _, _ => None
      end
  | _ => None
  end.

(** A network is kept as an address and the number of host bits. *)
Definition ipv4_contains (net : N * N) (x : N) : bool :=
  (N.shiftr x (snd net) =? N.shiftr (fst net) (snd net))%N.

#[export] Instance dotted_quad : IPAddress := {|
  address := N;
  network := N * N;
  ip_address := ipv4_address;
  ip_network := ipv4_network;
  address_eqb := N.eqb;
  network_contains := ipv4_contains
|}.

Definition admin_request (request_path : string)
    (meta : list (string * string)) : WSGIRequest :=
  {| base := {| get_host := "example.com"; path := request_path;
                is_secure := true |};
     META := meta |}.

Definition admin_downstream (request : WSGIRequest) : result HttpResponse :=
  Ok (HttpResponseOther 200 (path (base request))).

Definition office_settings : AdminSettings :=
  {| ADMIN_ALLOWED_IPS := Some ["203.0.113.7"; "not an address"];
     ADMIN_ALLOWED_NETWORKS := Some ["10.0.0.0/8"];
     ADMIN_IP_RESTRICTION_ENABLED := None |}.

Definition unset_settings : AdminSettings :=
  {| ADMIN_ALLOWED_IPS := None;
     ADMIN_ALLOWED_NETWORKS := None;
     ADMIN_IP_RESTRICTION_ENABLED := None |}.

(** A non-empty string whose last character is no white space. *)
Fixpoint ends_unspaced (s : string) : bool :=
  match s with
  | EmptyString => false
  | String c EmptyString => negb (Py.isspace_char c)
  | String _ s' => ends_unspaced s'
  end.

(** A non-empty string whose first character is no white space. *)
Definition starts_unspaced (s : string) : bool :=
  match s with
  | EmptyString => false
  | String c _ => negb (Py.isspace_char c)
  end.

Module Admin := AdminIPRestrictionMiddleware.

(** The client address is on the lists of the settings: it parses, and it
    equals an entry of [ADMIN_ALLOWED_IPS] that parses or lies in an entry
    of [ADMIN_ALLOWED_NETWORKS] that parses. *)
Definition listed {ipaddress : IPAddress} (settings : AdminSettings)
    (client_ip : option string) : Prop :=
  exists client,
    ip_address client_ip = Some client
    /\ ((exists entry allowed,
           In entry (getattr (ADMIN_ALLOWED_IPS settings) [])
           /\ ip_address (Some entry) = Some allowed
           /\ address_eqb client allowed = true)
        \/ (exists entry net,
              In entry (getattr (ADMIN_ALLOWED_NETWORKS settings) [])
              /\ ip_network entry = Some net
              /\ network_contains net client = true)).

(** The request is for the admin and the restriction is not switched
    off. *)
Definition restricted (settings : AdminSettings) (request : WSGIRequest)
    : bool :=
  Py.startswith (path (base request)) "/admin/"
  && getattr (ADMIN_IP_RESTRICTION_ENABLED settings) true.

(** A text made of the characters [iri_to_uri] keeps as they are. *)
Definition uri_text (s : string) : bool :=
  Py.all_chars
    (fun c => Py.kept "/#%[]=:;$&()+,!?*@'~" (N_of_ascii c)) s.

Definition request_with_space : HttpRequest :=
  {| get_host := "blog.example.com"; path := "/a b/"; is_secure := true |}.

Definition plain_request : HttpRequest :=
  {| get_host := "shop.ghostjam.com"; path := "/x/"; is_secure := false |}.

Definition ghostjam_settings : Settings :=
  {| MAIN_DOMAIN := Some "ghostjam.com" |}.

(** * Properties *)

(** ** Strings *)

Section StringFacts.

Lemma lower_char_idem (c : ascii) :
  Py.lower_char (Py.lower_char c) = Py.lower_char c.
Proof. destruct c as [[] [] [] [] [] [] [] []]; reflexivity. Qed.

Lemma lower_idem (s : string) : Py.lower (Py.lower s) = Py.lower s.
Proof.
  induction s as [| c s IH]; simpl; [reflexivity |].
  now rewrite lower_char_idem, IH.
Qed.

Lemma split_not_nil (sep : ascii) (s : string) : Py.split sep s <> [].
Proof.
  destruct s as [| c s]; simpl; [discriminate |].
  destruct (Ascii.eqb c sep); [discriminate |].
  destruct (Py.split sep s); discriminate.
Qed.

Lemma split_without_sep (sep : ascii) (s : string) :
  Py.contains sep s = false -> Py.split sep s = [s].
Proof.
  induction s as [| c s IH]; simpl; [reflexivity |].
  intros H. apply orb_false_iff in H as [Hc Hs].
  rewrite Hc, (IH Hs). reflexivity.
Qed.

Lemma item0_split_without_sep (sep : ascii) (s : string) :
  Py.contains sep s = false -> Py.item0 (Py.split sep s) = s.
Proof. intros H. now rewrite split_without_sep. Qed.

Lemma length_app (p q : string) :
  String.length (p ++ q) = String.length p + String.length q.
Proof. induction p; simpl; congruence. Qed.

Lemma drop_app (p q : string) : Py.drop (String.length p) (p ++ q) = q.
Proof. induction p; simpl; [now destruct q | assumption]. Qed.

Lemma take_app (p q : string) : Py.take (String.length p) (p ++ q) = p.
Proof.
  unfold Py.take. induction p as [| c p IH]; simpl.
  - now destruct q.
  - now rewrite IH.
Qed.

Lemma take_drop (n : nat) (s : string) : Py.take n s ++ Py.drop n s = s.
Proof.
  unfold Py.take. revert s.
  induction n as [| n IH]; intros [| c s]; simpl; try reflexivity.
  now rewrite IH.
Qed.

Lemma prefix_refl (s : string) : prefix s s = true.
Proof.
  induction s as [| c s IH]; simpl; [reflexivity |].
  destruct (ascii_dec c c); [assumption | contradiction].
Qed.

Lemma rfind_from_hit (sub s : string) (i : nat) :
  prefix sub (Py.drop i s) = true -> Py.rfind_from sub s i = Some i.
Proof. intros H. destruct i; simpl in *; now rewrite H. Qed.

(** A string that ends with [suffix] is what precedes it, then it. *)
Lemma endswith_inv (s suffix : string) :
  Py.endswith s suffix = true ->
  s = Py.take (String.length s - String.length suffix) s ++ suffix.
Proof.
  unfold Py.endswith. intros H.
  apply andb_true_iff in H as [_ H]. apply String.eqb_eq in H.
  rewrite <- (take_drop (String.length s - String.length suffix) s) at 1.
  now f_equal.
Qed.

Lemma endswith_app (p suffix : string) :
  Py.endswith (p ++ suffix) suffix = true.
Proof.
  unfold Py.endswith. rewrite length_app.
  apply andb_true_iff. split.
  - apply Nat.leb_le. lia.
  - replace (String.length p + String.length suffix - String.length suffix)
      with (String.length p) by lia.
    rewrite drop_app. apply String.eqb_refl.
Qed.

(** One split from the right, at a separator the string ends with, cuts
    the separator off. *)
Lemma rsplit1_endswith (s sep : string) :
  Py.endswith s sep = true ->
  Py.item0 (Py.rsplit1 sep s)
  = Py.take (String.length s - String.length sep) s.
Proof.
  unfold Py.endswith, Py.rsplit1, Py.rfind. intros H.
  apply andb_true_iff in H as [Hlen H].
  apply Nat.leb_le in Hlen. apply String.eqb_eq in H.
  destruct (Nat.ltb_spec (String.length s) (String.length sep)); [lia |].
  rewrite rfind_from_hit; [reflexivity |].
  rewrite H. apply prefix_refl.
Qed.

Lemma rsplit1_app (p sep : string) :
  Py.item0 (Py.rsplit1 sep (p ++ sep)) = p.
Proof.
  rewrite rsplit1_endswith by apply endswith_app.
  rewrite length_app.
  replace (String.length p + String.length sep - String.length sep)
    with (String.length p) by lia.
  apply take_app.
Qed.

Lemma truthy_true (s : string) : Py.truthy s = true <-> s <> "".
Proof.
  unfold Py.truthy. rewrite negb_true_iff. apply String.eqb_neq.
Qed.

Lemma truthy_false (s : string) : Py.truthy s = false <-> s = "".
Proof.
  unfold Py.truthy. rewrite negb_false_iff. apply String.eqb_eq.
Qed.

End StringFacts.

(** ** The resolver *)

Section Resolver.

Variable objects : list SubdomainRedirect.t.

Lemma filter_absent (k : string) (a : bool) (l : list SubdomainRedirect.t) :
  ~ In k (map subdomain l) -> filter (matching k a) l = [].
Proof.
  induction l as [| x l IH]; simpl; intros Hk; [reflexivity |].
  unfold matching at 1.
  destruct (String.eqb_spec (subdomain x) k) as [E | _].
  - exfalso. apply Hk. now left.
  - simpl. apply IH. intros Hin. apply Hk. now right.
Qed.

Lemma filter_unique (k : string) (a : bool) (row : SubdomainRedirect.t)
    (l : list SubdomainRedirect.t) :
  NoDup (map subdomain l) -> In row l -> subdomain row = k ->
  filter (matching k a) l = if Bool.eqb (is_active row) a then [row] else [].
Proof.
  induction l as [| x l IH]; simpl; intros Hnd Hin Hk; [contradiction |].
  inversion Hnd as [| ? ? Hx Hl]; subst.
  destruct Hin as [-> | Hin].
  - unfold matching at 1. rewrite String.eqb_refl. simpl.
    rewrite (filter_absent _ _ _ Hx).
    now destruct (Bool.eqb (is_active row) a).
  - unfold matching at 1.
    destruct (String.eqb_spec (subdomain x) (subdomain row)) as [E | _].
    + exfalso. apply Hx. rewrite E. now apply in_map.
    + simpl. now apply IH.
Qed.

Lemma unique_row (l : list SubdomainRedirect.t)
    (r1 r2 : SubdomainRedirect.t) :
  NoDup (map subdomain l) -> In r1 l -> In r2 l ->
  subdomain r1 = subdomain r2 -> r1 = r2.
Proof.
  induction l as [| x l IH]; simpl; [contradiction |].
  intros Hnd H1 H2 E. inversion Hnd as [| ? ? Hx Hl]; subst.
  destruct H1 as [-> | H1], H2 as [-> | H2]; auto.
  - exfalso. apply Hx. rewrite E. now apply in_map.
  - exfalso. apply Hx. rewrite <- E. now apply in_map.
Qed.

Hypothesis unique : unique_subdomains objects.

Lemma resolve_active (s : string) (row : SubdomainRedirect.t) :
  In row objects -> subdomain row = Py.lower s -> is_active row = true ->
  get_redirect_for_subdomain objects s = Ok (Some row).
Proof.
  intros Hin Hk Ha. unfold get_redirect_for_subdomain, objects_get.
  rewrite (filter_unique _ _ row) by assumption.
  now rewrite Ha.
Qed.

Lemma resolve_miss (s : string) :
  (forall row, In row objects -> subdomain row = Py.lower s ->
               is_active row = false) ->
  get_redirect_for_subdomain objects s = Ok None.
Proof.
  intros Hmiss. unfold get_redirect_for_subdomain, objects_get.
  destruct (in_dec string_dec (Py.lower s) (map subdomain objects))
    as [Hin | Hout].
  - apply in_map_iff in Hin as (row & Hk & Hin).
    rewrite (filter_unique _ _ row) by assumption.
    now rewrite (Hmiss row Hin Hk).
  - now rewrite filter_absent.
Qed.

Lemma resolve_never_raises (s : string) :
  exists found, get_redirect_for_subdomain objects s = Ok found.
Proof.
  destruct (in_dec string_dec (Py.lower s) (map subdomain objects))
    as [Hin | Hout].
  - apply in_map_iff in Hin as (row & Hk & Hin).
    destruct (is_active row) eqn:Ha.
    + exists (Some row). now apply resolve_active.
    + exists None. apply resolve_miss. intros row' Hin' Hk'.
      rewrite (unique_row objects row' row); auto. congruence.
  - exists None. apply resolve_miss. intros row Hin Hk.
    exfalso. apply Hout. rewrite <- Hk. now apply in_map.
Qed.

End Resolver.

(** What the resolver returns is a row of the table that matches; this
    needs no assumption on the table. *)
Lemma resolve_sound (objects : list SubdomainRedirect.t) (s : string)
    (row : SubdomainRedirect.t) :
  get_redirect_for_subdomain objects s = Ok (Some row) ->
  In row objects /\ subdomain row = Py.lower s /\ is_active row = true.
Proof.
  unfold get_redirect_for_subdomain, objects_get.
  set (f := matching _ _).
  destruct (filter f objects) as [| r [| r' l]] eqn:Ef; try discriminate.
  intros [= ->].
  assert (Hin : In row (filter f objects)) by (rewrite Ef; now left).
  apply filter_In in Hin as [Hin Hf]. subst f. unfold matching in Hf.
  apply andb_true_iff in Hf as [Hk Ha].
  apply String.eqb_eq in Hk. apply Bool.eqb_prop in Ha.
  auto.
Qed.

(** C2.  On a table whose subdomains are unique, the resolver called with
    [s] returns the active row stored under the lowercasing of [s]; it
    returns [None] when no row is stored under it or that row is inactive;
    it never raises; and whatever row it returns is an active row of the
    table stored under the lowercasing of [s]. *)
Theorem get_redirect_for_subdomain_spec
    (objects : list SubdomainRedirect.t) (s : string) :
  unique_subdomains objects ->
  (forall row, In row objects -> subdomain row = Py.lower s ->
               is_active row = true ->
               get_redirect_for_subdomain objects s = Ok (Some row))
  /\ ((forall row, In row objects -> subdomain row = Py.lower s ->
                   is_active row = false) ->
      get_redirect_for_subdomain objects s = Ok None)
  /\ (exists found, get_redirect_for_subdomain objects s = Ok found)
  /\ (forall row, get_redirect_for_subdomain objects s = Ok (Some row) ->
                  In row objects /\ subdomain row = Py.lower s
                  /\ is_active row = true).
Proof.
  intros Hu. repeat split.
  - intros row. now apply resolve_active.
  - now apply resolve_miss.
  - now apply resolve_never_raises.
  - now apply resolve_sound in H.
  - now apply resolve_sound in H.
  - now apply resolve_sound in H.
Qed.

Lemma get_redirect_for_subdomain_spec_witness :
  get_redirect_for_subdomain example_objects "Shop" = Ok (Some shop_rule)
  /\ get_redirect_for_subdomain example_objects "Blog" = Ok None.
Proof.
  split.
  - apply (get_redirect_for_subdomain_spec example_objects "Shop").
    + unfold unique_subdomains. simpl.
      repeat constructor; simpl; intuition discriminate.
    + simpl. now left.
    + reflexivity.
    + reflexivity.
  - apply (get_redirect_for_subdomain_spec example_objects "Blog").
    + unfold unique_subdomains. simpl.
      repeat constructor; simpl; intuition discriminate.
    + simpl. intros row [<- | [<- | []]]; [discriminate | reflexivity].
Defined.

(** ** The interceptor *)

Section Interceptor.

Variable settings : Settings.
Variable objects : list SubdomainRedirect.t.
Variable get_response : HttpRequest -> result HttpResponse.
Variable request : HttpRequest.

Lemma call_other_host :
  under_main_domain settings request = false ->
  __call__ settings objects get_response request = get_response request.
Proof.
  unfold under_main_domain, __call__. intros H. now rewrite H.
Qed.

Lemma call_skipped_label :
  candidate_of settings request = ""
  \/ candidate_of settings request = "www" ->
  __call__ settings objects get_response request = get_response request.
Proof.
  unfold candidate_of, __call__. intros H.
  destruct (Py.endswith _ _); [| reflexivity].
  destruct H as [-> | ->]; reflexivity.
Qed.

Lemma call_lookup :
  under_main_domain settings request = true ->
  candidate_of settings request <> "" ->
  candidate_of settings request <> "www" ->
  __call__ settings objects get_response request
  = match get_redirect_for_subdomain objects (candidate_of settings request)
    with
    | Raise e => Raise e
    | Ok (Some redirect_obj) =>
        Ok (redirect
              (redirect_url_of (main_domain_of settings) redirect_obj request)
              true)
    | Ok None => get_response request
    end.
Proof.
  unfold under_main_domain, candidate_of, __call__. intros He Hn Hw.
  rewrite He. unfold Py.truthy. simpl.
  apply String.eqb_neq in Hn, Hw. now rewrite Hn, Hw.
Qed.

Lemma call_redirect (redirect_obj : SubdomainRedirect.t) :
  under_main_domain settings request = true ->
  candidate_of settings request <> "" ->
  candidate_of settings request <> "www" ->
  get_redirect_for_subdomain objects (candidate_of settings request)
  = Ok (Some redirect_obj) ->
  __call__ settings objects get_response request
  = Ok (HttpResponsePermanentRedirect
          (protocol_of request ++ "://" ++ main_domain_of settings
             ++ determine_redirect_path redirect_obj request)).
Proof.
  intros He Hn Hw Hr. rewrite call_lookup by assumption. now rewrite Hr.
Qed.

(** Every outcome of the interceptor is the downstream response, an
    exception of the resolver, or a permanent redirect. *)
Lemma call_outcomes :
  __call__ settings objects get_response request = get_response request
  \/ (exists e,
        get_redirect_for_subdomain objects (candidate_of settings request)
        = Raise e
        /\ __call__ settings objects get_response request = Raise e)
  \/ (exists redirect_obj,
        get_redirect_for_subdomain objects (candidate_of settings request)
        = Ok (Some redirect_obj)
        /\ __call__ settings objects get_response request
           = Ok (HttpResponsePermanentRedirect
                   (protocol_of request ++ "://" ++ main_domain_of settings
                      ++ determine_redirect_path redirect_obj request))).
Proof.
  destruct (under_main_domain settings request) eqn:He;
    [| left; now apply call_other_host].
  destruct (string_dec (candidate_of settings request) "") as [Hn | Hn];
    [left; apply call_skipped_label; now left |].
  destruct (string_dec (candidate_of settings request) "www") as [Hw | Hw];
    [left; apply call_skipped_label; now right |].
  rewrite call_lookup by assumption.
  destruct (get_redirect_for_subdomain objects _)
    as [[redirect_obj |] | e].
  - right. right. now exists redirect_obj.
  - now left.
  - right. left. now exists e.
Qed.

End Interceptor.

Lemma determine_full_canonical (redirect_obj : SubdomainRedirect.t)
    (request : HttpRequest) (url : string) :
  redirect_type redirect_obj = REDIRECT_TYPE_FULL ->
  canonical_location redirect_obj = Some url ->
  determine_redirect_path redirect_obj request = url.
Proof.
  unfold determine_redirect_path, canonical_location. intros -> H. simpl.
  destruct (content_object redirect_obj) as [target |]; [| discriminate].
  now rewrite H.
Qed.

Lemma determine_full_literal (redirect_obj : SubdomainRedirect.t)
    (request : HttpRequest) :
  redirect_type redirect_obj = REDIRECT_TYPE_FULL ->
  canonical_location redirect_obj = None ->
  determine_redirect_path redirect_obj request = redirect_path redirect_obj.
Proof.
  unfold determine_redirect_path, canonical_location. intros -> H. simpl.
  destruct (content_object redirect_obj) as [target |]; [| reflexivity].
  now rewrite H.
Qed.

Lemma determine_not_full (redirect_obj : SubdomainRedirect.t)
    (request : HttpRequest) :
  redirect_type redirect_obj <> REDIRECT_TYPE_FULL ->
  determine_redirect_path redirect_obj request = path request.
Proof.
  unfold determine_redirect_path. intros H.
  apply String.eqb_neq in H. now rewrite H.
Qed.

(** C1.  The redirect path the interceptor determines for a rule and a
    request: for a FULL rule whose linked object has a canonical location,
    that location; for a FULL rule with no linked object, or one without
    the accessor, the rule's [redirect_path]; for a PATH_PRESERVE rule, the
    path of the request. *)
Theorem determine_redirect_path_spec
    (redirect_obj : SubdomainRedirect.t) (request : HttpRequest) :
  (redirect_type redirect_obj = REDIRECT_TYPE_FULL ->
   forall url, canonical_location redirect_obj = Some url ->
               determine_redirect_path redirect_obj request = url)
  /\ (redirect_type redirect_obj = REDIRECT_TYPE_FULL ->
      canonical_location redirect_obj = None ->
      determine_redirect_path redirect_obj request
      = redirect_path redirect_obj)
  /\ (redirect_type redirect_obj = REDIRECT_TYPE_PATH_PRESERVE ->
      determine_redirect_path redirect_obj request = path request).
Proof.
  repeat split.
  - intros Ht url Hc. now apply determine_full_canonical.
  - now apply determine_full_literal.
  - intros Ht. apply determine_not_full. rewrite Ht. discriminate.
Qed.

Lemma determine_redirect_path_spec_witness :
  determine_redirect_path
    (rule "shop" "full" "/store/" true (Some (page "/products/")))
    (request_to "shop.example.com") = "/products/"
  /\ determine_redirect_path
       (rule "shop" "full" "/store/" true (Some bare_object))
       (request_to "shop.example.com") = "/store/"
  /\ determine_redirect_path blog_rule (request_to "blog.example.com")
     = "/x/".
Proof.
  split; [| split].
  - apply (determine_redirect_path_spec
             (rule "shop" "full" "/store/" true (Some (page "/products/")))
             (request_to "shop.example.com")); reflexivity.
  - apply (determine_redirect_path_spec
             (rule "shop" "full" "/store/" true (Some bare_object))
             (request_to "shop.example.com")); reflexivity.
  - apply (determine_redirect_path_spec blog_rule
             (request_to "blog.example.com")); reflexivity.
Defined.

(** C4.  A request whose hostname does not end with "." followed by the
    main domain, or whose extracted label is empty or "www", gets the
    downstream response for the same request; with main domain example.com
    this is so for the hostnames www.example.com and example.com, whatever
    the table holds. *)
Theorem passthrough_spec (settings : Settings)
    (objects : list SubdomainRedirect.t)
    (get_response : HttpRequest -> result HttpResponse)
    (request : HttpRequest) :
  (under_main_domain settings request = false
   \/ candidate_of settings request = ""
   \/ candidate_of settings request = "www" ->
   __call__ settings objects get_response request = get_response request)
  /\ (main_domain_of settings = "example.com" ->
      hostname_of request = "www.example.com"
      \/ hostname_of request = "example.com" ->
      __call__ settings objects get_response request = get_response request).
Proof.
  split.
  - intros [H | H]; [now apply call_other_host | now apply call_skipped_label].
  - intros Hm [Hh | Hh].
    + apply call_skipped_label. right.
      unfold candidate_of. now rewrite Hm, Hh.
    + apply call_other_host.
      unfold under_main_domain. now rewrite Hm, Hh.
Qed.

Lemma passthrough_spec_witness :
  __call__ example_settings example_objects downstream
    (request_to "WWW.example.com:8000")
  = downstream (request_to "WWW.example.com:8000")
  /\ __call__ example_settings example_objects downstream
       (request_to "example.com")
     = downstream (request_to "example.com")
  /\ __call__ example_settings example_objects downstream
       (request_to "shop.example.org")
     = downstream (request_to "shop.example.org").
Proof.
  split; [| split].
  - apply (proj2 (passthrough_spec example_settings example_objects
                      downstream (request_to "WWW.example.com:8000"))).
    + reflexivity.
    + left. reflexivity.
  - apply (proj2 (passthrough_spec example_settings example_objects
                      downstream (request_to "example.com"))).
    + reflexivity.
    + right. reflexivity.
  - apply (proj1 (passthrough_spec example_settings example_objects
                      downstream (request_to "shop.example.org"))).
    left. reflexivity.
Defined.

Lemma quote_uri_char (c : ascii) (safe : string) :
  Py.kept safe (N_of_ascii c) = true ->
  Py.quote_bytes safe (Py.utf8 c) = String c "".
Proof.
  intros H. unfold Py.utf8.
  assert (Hlt : (N_of_ascii c <? 128)%N = true).
  { unfold Py.kept in H. now apply andb_true_iff in H as [H _]. }
  rewrite Hlt. simpl. now rewrite H, ascii_N_embedding.
Qed.

(** [iri_to_uri] leaves a text of URI characters as it is. *)
Lemma iri_to_uri_uri_text (s : string) :
  uri_text s = true -> iri_to_uri s = s.
Proof.
  unfold uri_text, iri_to_uri.
  induction s as [| c s IH]; simpl; [reflexivity |].
  intros H. apply andb_true_iff in H as [Hc Hs].
  now rewrite quote_uri_char, IH.
Qed.

(** C3, as the code has it.  When the interceptor redirects (the host is
    under the main domain, the label is neither empty nor "www", and the
    resolver returns a rule), the response is the permanent redirect, of
    status 301, built with the URL made of "https" or "http" as the request
    is secure or not, "://", the configured [MAIN_DOMAIN] or example.com
    when none is configured, and the determined path.  Its Location is
    the URI encoding of that URL, and the URL itself when the URL is made
    of URI characters.  Every outcome of the interceptor that is neither
    the downstream response nor an exception of the resolver is such a
    redirect.  And shop.example.com requested over https, with an active
    FULL rule for "shop" to /store/ that has no canonical location of a
    linked object, is redirected to https://example.com/store/. *)
Theorem redirect_response_spec (settings : Settings)
    (objects : list SubdomainRedirect.t)
    (get_response : HttpRequest -> result HttpResponse)
    (request : HttpRequest) :
  (forall redirect_obj,
     under_main_domain settings request = true ->
     candidate_of settings request <> "" ->
     candidate_of settings request <> "www" ->
     get_redirect_for_subdomain objects (candidate_of settings request)
     = Ok (Some redirect_obj) ->
     forall url,
       url = (if is_secure request then "https" else "http") ++ "://"
               ++ match MAIN_DOMAIN settings with
                  | Some domain => domain
                  | None => "example.com"
                  end
               ++ determine_redirect_path redirect_obj request ->
       __call__ settings objects get_response request
       = Ok (HttpResponsePermanentRedirect url)
       /\ status_code (HttpResponsePermanentRedirect url) = 301%Z
       /\ Location (HttpResponsePermanentRedirect url)
          = Some (iri_to_uri url)
       /\ (uri_text url = true ->
           Location (HttpResponsePermanentRedirect url) = Some url))
  /\ (__call__ settings objects get_response request = get_response request
      \/ (exists e,
            get_redirect_for_subdomain objects (candidate_of settings request)
            = Raise e
            /\ __call__ settings objects get_response request = Raise e)
      \/ (exists redirect_obj,
            get_redirect_for_subdomain objects (candidate_of settings request)
            = Ok (Some redirect_obj)
            /\ __call__ settings objects get_response request
               = Ok (HttpResponsePermanentRedirect
                       ((if is_secure request then "https" else "http")
                          ++ "://"
                          ++ match MAIN_DOMAIN settings with
                             | Some domain => domain
                             | None => "example.com"
                             end
                          ++ determine_redirect_path redirect_obj request))))
  /\ (forall redirect_obj,
        MAIN_DOMAIN settings = None
        \/ MAIN_DOMAIN settings = Some "example.com" ->
        hostname_of request = "shop.example.com" ->
        is_secure request = true ->
        unique_subdomains objects ->
        In redirect_obj objects ->
        subdomain redirect_obj = "shop" ->
        is_active redirect_obj = true ->
        redirect_type redirect_obj = REDIRECT_TYPE_FULL ->
        redirect_path redirect_obj = "/store/" ->
        canonical_location redirect_obj = None ->
        exists response,
          __call__ settings objects get_response request = Ok response
          /\ status_code response = 301%Z
          /\ Location response = Some "https://example.com/store/").
Proof.
  split; [| split].
  - intros redirect_obj He Hn Hw Hr url ->.
    split; [| split; [reflexivity | split; [reflexivity |]]].
    + now apply call_redirect.
    + intros Hu. simpl. now rewrite iri_to_uri_uri_text.
  - apply call_outcomes.
  - intros redirect_obj Hm Hh Hs Hu Hin Hk Ha Ht Hp Hc.
    assert (Hmain : main_domain_of settings = "example.com")
      by (unfold main_domain_of; destruct Hm as [-> | ->]; reflexivity).
    assert (Hcand : candidate_of settings request = "shop")
      by (unfold candidate_of; now rewrite Hmain, Hh).
    exists (HttpResponsePermanentRedirect "https://example.com/store/").
    split; [| split; reflexivity].
    rewrite (call_redirect settings objects get_response request redirect_obj).
    + rewrite (determine_full_literal redirect_obj request Ht Hc), Hp, Hmain.
      unfold protocol_of. now rewrite Hs.
    + unfold under_main_domain. now rewrite Hmain, Hh.
    + rewrite Hcand. discriminate.
    + rewrite Hcand. discriminate.
    + rewrite Hcand. now apply resolve_active.
Qed.

Lemma redirect_response_spec_witness :
  (__call__ ghostjam_settings example_objects downstream plain_request
   = Ok (HttpResponsePermanentRedirect "http://ghostjam.com/store/")
   /\ status_code (HttpResponsePermanentRedirect "http://ghostjam.com/store/")
      = 301%Z
   /\ Location (HttpResponsePermanentRedirect "http://ghostjam.com/store/")
      = Some (iri_to_uri "http://ghostjam.com/store/")
   /\ (uri_text "http://ghostjam.com/store/" = true ->
       Location (HttpResponsePermanentRedirect "http://ghostjam.com/store/")
       = Some "http://ghostjam.com/store/"))
  /\ exists response,
       __call__ example_settings example_objects downstream
         (request_to "shop.example.com") = Ok response
       /\ status_code response = 301%Z
       /\ Location response = Some "https://example.com/store/".
Proof.
  split.
  - apply (proj1 (redirect_response_spec ghostjam_settings example_objects
                    downstream plain_request) shop_rule).
    + reflexivity.
    + discriminate.
    + discriminate.
    + reflexivity.
    + reflexivity.
  - apply (proj2 (proj2 (redirect_response_spec example_settings
                           example_objects downstream
                           (request_to "shop.example.com"))) shop_rule).
    + now left.
    + reflexivity.
    + reflexivity.
    + unfold unique_subdomains. simpl.
      repeat constructor; simpl; intuition discriminate.
    + simpl. now left.
    + reflexivity.
    + reflexivity.
    + reflexivity.
    + reflexivity.
    + reflexivity.
Defined.

(** C3, as stated, fails: a path-preserving redirect of the path "/a b/"
    has the Location https://example.com/a%20b/, which is not the URL made
    of the scheme, the main domain and the path. *)
Lemma location_encoding_counterexample :
  __call__ example_settings [rule "blog" "path_preserve" "" true None]
    downstream request_with_space
  = Ok (HttpResponsePermanentRedirect "https://example.com/a b/")
  /\ determine_redirect_path (rule "blog" "path_preserve" "" true None)
       request_with_space = "/a b/"
  /\ Location (HttpResponsePermanentRedirect "https://example.com/a b/")
     = Some "https://example.com/a%20b/"
  /\ Location (HttpResponsePermanentRedirect "https://example.com/a b/")
     <> Some ("https" ++ "://" ++ "example.com" ++ "/a b/").
Proof. repeat split. discriminate. Qed.

(** C8, as the code has it.  When the hostname ends with "." followed by
    the main domain, the string handed to the resolver is the hostname
    without that suffix: everything to the left of it, which is the leftmost
    label only when a single label is left.  For a hostname a.b.MAIN it is
    a.b; and the outcome of the interceptor is decided by the resolver on
    this string. *)
Theorem subdomain_candidate_spec :
  (forall main_domain hostname,
     Py.endswith hostname ("." ++ main_domain) = true ->
     hostname = subdomain_of main_domain hostname ++ "." ++ main_domain)
  /\ (forall main_domain left,
        subdomain_of main_domain (left ++ "." ++ main_domain) = left)
  /\ (forall main_domain a b,
        subdomain_of main_domain (a ++ "." ++ b ++ "." ++ main_domain)
        = a ++ "." ++ b)
  /\ (forall settings objects get_response request,
        under_main_domain settings request = true ->
        candidate_of settings request <> "" ->
        candidate_of settings request <> "www" ->
        __call__ settings objects get_response request
        = match get_redirect_for_subdomain objects
                  (candidate_of settings request) with
          | Raise e => Raise e
          | Ok (Some redirect_obj) =>
              Ok (redirect
                    (redirect_url_of (main_domain_of settings) redirect_obj
                       request) true)
          | Ok None => get_response request
          end).
Proof.
  split; [| split; [| split]].
  - intros main_domain hostname H. unfold subdomain_of.
    rewrite rsplit1_endswith by assumption.
    now apply endswith_inv.
  - intros main_domain left. unfold subdomain_of. apply rsplit1_app.
  - intros main_domain a b. unfold subdomain_of.
    assert (E : a ++ "." ++ b ++ "." ++ main_domain
                = (a ++ "." ++ b) ++ "." ++ main_domain).
    { induction a as [| c a IH]; simpl in *; [reflexivity | now f_equal]. }
    rewrite E. apply rsplit1_app.
  - intros. now apply call_lookup.
Qed.

Lemma subdomain_candidate_spec_witness :
  "a.b.example.com" = subdomain_of "example.com" "a.b.example.com"
                        ++ "." ++ "example.com"
  /\ __call__ example_settings example_objects downstream
       (request_to "shop.example.com")
     = Ok (HttpResponsePermanentRedirect "https://example.com/store/").
Proof.
  split.
  - apply (proj1 subdomain_candidate_spec "example.com" "a.b.example.com").
    reflexivity.
  - rewrite (proj2 (proj2 (proj2 subdomain_candidate_spec)) example_settings
               example_objects downstream (request_to "shop.example.com")).
    + reflexivity.
    + reflexivity.
    + discriminate.
    + discriminate.
Defined.

(** C8, as stated, fails: for the hostname a.b.example.com the resolver is
    called with "a.b", not with the leftmost label "a"; a rule stored for
    "a" is not found, a rule stored for "a.b" is. *)
Lemma leftmost_label_counterexample :
  under_main_domain example_settings request_a_b = true
  /\ candidate_of example_settings request_a_b = "a.b"
  /\ candidate_of example_settings request_a_b <> "a"
  /\ __call__ example_settings [rule "a" "full" "/first/" true None]
       downstream request_a_b
     = downstream request_a_b
  /\ __call__ example_settings [rule "a.b" "full" "/both/" true None]
       downstream request_a_b
     = Ok (HttpResponsePermanentRedirect "http://example.com/both/").
Proof.
  repeat split. discriminate.
Qed.

(** ** Validation at write time *)

(** [clean], branch by branch. *)
Lemma clean_eq (self : SubdomainRedirect.t) :
  clean self
  = if Py.truthy (subdomain self) then
      let self' := set_subdomain (normalized (subdomain self)) self in
      if negb (Py.isalnum (subdomain self'))
         && negb (Py.contains "-" (subdomain self'))
      then (self', Raise (ValidationError msg_subdomain_chars))
      else if (String.length (subdomain self') <? 2)%nat
      then (self', Raise (ValidationError msg_subdomain_length))
      else (self', configuration_outcome self')
    else (self, configuration_outcome self).
Proof.
  unfold clean, bind, get_self, assign_subdomain, when, raise, ret,
    configuration_outcome, normalized.
  destruct (Py.truthy (subdomain self)); cbv zeta.
  - destruct (negb _ && negb _); [reflexivity |].
    destruct (_ <? 2)%nat; [reflexivity |].
    destruct (_ && negb _); [reflexivity |].
    destruct (_ && Py.truthy _); reflexivity.
  - destruct (_ && negb _); [reflexivity |].
    destruct (_ && Py.truthy _); reflexivity.
Qed.

Lemma inconsistent_dec (self : SubdomainRedirect.t) :
  {inconsistent self} + {~ inconsistent self}.
Proof.
  unfold inconsistent.
  destruct (string_dec (redirect_type self) REDIRECT_TYPE_FULL),
    (string_dec (redirect_type self) REDIRECT_TYPE_PATH_PRESERVE),
    (string_dec (redirect_path self) ""); tauto.
Qed.

Lemma configuration_outcome_inconsistent (self : SubdomainRedirect.t) :
  inconsistent self ->
  raises_configuration_error (configuration_outcome self).
Proof.
  unfold inconsistent, raises_configuration_error, configuration_outcome.
  intros [[-> ->] | [-> Hp]].
  - left. reflexivity.
  - right. apply truthy_true in Hp. now rewrite Hp.
Qed.

Lemma configuration_outcome_consistent (self : SubdomainRedirect.t) :
  ~ inconsistent self -> configuration_outcome self = Ok tt.
Proof.
  unfold inconsistent, configuration_outcome. intros H.
  destruct (String.eqb_spec (redirect_type self) REDIRECT_TYPE_FULL) as [Ef | _];
    simpl.
  - destruct (Py.truthy (redirect_path self)) eqn:Et; simpl.
    + rewrite Ef. reflexivity.
    + apply truthy_false in Et. tauto.
  - destruct (String.eqb_spec (redirect_type self) REDIRECT_TYPE_PATH_PRESERVE)
      as [Ep | _]; simpl; [| reflexivity].
    destruct (Py.truthy (redirect_path self)) eqn:Et; [| reflexivity].
    apply truthy_true in Et. tauto.
Qed.

Lemma configuration_error_not_subdomain_error (outcome : result unit) :
  raises_configuration_error outcome -> ~ raises_subdomain_error outcome.
Proof.
  intros [-> | ->] [H | H]; discriminate.
Qed.

(** The outcome of [clean] is a subdomain error, or the outcome of the
    configuration checks. *)
Lemma clean_outcome (self : SubdomainRedirect.t) :
  raises_subdomain_error (snd (clean self))
  \/ snd (clean self) = configuration_outcome self.
Proof.
  rewrite clean_eq. unfold raises_subdomain_error.
  destruct (Py.truthy (subdomain self)); cbv zeta; [| now right].
  destruct (negb _ && negb _); [left; now left |].
  destruct (_ <? 2)%nat; [left; now right |].
  now right.
Qed.

(** C6.  [clean] raises a validation error whenever [redirect_type] and
    [redirect_path] are inconsistent (FULL with an empty path,
    PATH_PRESERVE with a non-empty path); it raises neither of the two
    configuration errors on a consistent combination; and when the
    subdomain checks raise nothing, [clean] raises if and only if the
    combination is inconsistent. *)
Theorem clean_redirect_configuration_spec (self : SubdomainRedirect.t) :
  (inconsistent self -> raises_validation_error (snd (clean self)))
  /\ (raises_configuration_error (snd (clean self)) -> inconsistent self)
  /\ (~ raises_subdomain_error (snd (clean self)) ->
      (raises_validation_error (snd (clean self)) <-> inconsistent self)).
Proof.
  split; [| split].
  - intros Hi. destruct (clean_outcome self) as [[-> | ->] | ->].
    + now eexists.
    + now eexists.
    + destruct (configuration_outcome_inconsistent self Hi) as [-> | ->];
        now eexists.
  - intros Hc. destruct (inconsistent_dec self) as [Hi | Hi]; [assumption |].
    exfalso. destruct (clean_outcome self) as [Hs | E].
    + now apply (configuration_error_not_subdomain_error _ Hc).
    + rewrite E, (configuration_outcome_consistent self Hi) in Hc.
      destruct Hc; discriminate.
  - intros Hs. destruct (clean_outcome self) as [Hs' | E]; [contradiction |].
    rewrite E. split.
    + intros [message Hm].
      destruct (inconsistent_dec self) as [Hi | Hi]; [assumption |].
      rewrite (configuration_outcome_consistent self Hi) in Hm. discriminate.
    + intros Hi.
      destruct (configuration_outcome_inconsistent self Hi) as [-> | ->];
        now eexists.
Qed.

Lemma clean_redirect_configuration_spec_witness :
  raises_validation_error (snd (clean (rule "shop" "full" "" true None)))
  /\ raises_validation_error
       (snd (clean (rule "shop" "path_preserve" "/store/" true None)))
  /\ ~ raises_validation_error
         (snd (clean (rule "shop" "full" "/store/" true None))).
Proof.
  split; [| split].
  - apply (proj1 (clean_redirect_configuration_spec
                    (rule "shop" "full" "" true None))).
    left. split; reflexivity.
  - apply (proj1 (clean_redirect_configuration_spec
                    (rule "shop" "path_preserve" "/store/" true None))).
    right. split; [reflexivity | discriminate].
  - intros H.
    apply (proj2 (proj2 (clean_redirect_configuration_spec
                           (rule "shop" "full" "/store/" true None)))) in H.
    + destruct H as [[_ H] | [H _]]; discriminate.
    + intros [E | E]; discriminate.
Defined.

(** X4.  What the subdomain checks of [clean] do enforce on a non-empty
    subdomain: at least 2 characters, and either only letters and numbers
    or at least one hyphen. *)
Lemma clean_subdomain_guarantee (self : SubdomainRedirect.t) :
  subdomain self <> "" ->
  snd (clean self) = Ok tt ->
  subdomain (fst (clean self)) = normalized (subdomain self)
  /\ 2 <= String.length (normalized (subdomain self))
  /\ (Py.isalnum (normalized (subdomain self)) = true
      \/ Py.contains "-" (normalized (subdomain self)) = true).
Proof.
  intros Hn. rewrite clean_eq.
  apply truthy_true in Hn. rewrite Hn. cbv zeta. simpl subdomain.
  destruct (Py.isalnum (normalized (subdomain self))) eqn:Ea;
    destruct (Py.contains "-" (normalized (subdomain self))) eqn:Ec;
    simpl; try discriminate;
    destruct (Nat.ltb_spec (String.length (normalized (subdomain self))) 2);
    simpl; try discriminate; intros _; auto.
Qed.

Lemma alnum_of_letters_numbers_hyphens (s : string) :
  Py.contains "-" s = false ->
  Py.all_chars Py.isalnum_char s = letters_numbers_hyphens s.
Proof.
  unfold letters_numbers_hyphens.
  induction s as [| c s IH]; simpl; [reflexivity |].
  intros H. apply orb_false_iff in H as [Hc Hs].
  now rewrite Hc, orb_false_r, (IH Hs).
Qed.

(** X5.  Without a hyphen in it, a non-empty subdomain whose first label
    is empty, or has a character other than a letter or a number, is
    rejected with the character error. *)
Lemma clean_rejects_without_hyphen (self : SubdomainRedirect.t) :
  subdomain self <> "" ->
  Py.contains "-" (normalized (subdomain self)) = false ->
  normalized (subdomain self) = ""
  \/ letters_numbers_hyphens (normalized (subdomain self)) = false ->
  snd (clean self) = Raise (ValidationError msg_subdomain_chars).
Proof.
  intros Hn Hc Hl. rewrite clean_eq.
  apply truthy_true in Hn. rewrite Hn. cbv zeta. simpl subdomain.
  rewrite Hc.
  assert (Ea : Py.isalnum (normalized (subdomain self)) = false).
  { destruct Hl as [-> | Hl]; [reflexivity |].
    rewrite <- alnum_of_letters_numbers_hyphens in Hl by assumption.
    unfold Py.isalnum. now destruct (normalized (subdomain self)). }
  now rewrite Ea.
Qed.

(** X6.  A non-empty subdomain whose first label has fewer than 2
    characters is rejected. *)
Lemma clean_rejects_short (self : SubdomainRedirect.t) :
  subdomain self <> "" ->
  String.length (normalized (subdomain self)) < 2 ->
  raises_subdomain_error (snd (clean self)).
Proof.
  intros Hn Hl. rewrite clean_eq.
  apply truthy_true in Hn. rewrite Hn. cbv zeta. simpl subdomain.
  destruct (negb _ && negb _); [now left |].
  destruct (Nat.ltb_spec (String.length (normalized (subdomain self))) 2);
    [now right | lia].
Qed.

(** C7, at the failing input.  The subdomain my_shop-1 has an underscore,
    which is not a letter, a number or a hyphen; [clean] accepts the rule,
    because the character check is skipped as soon as the subdomain holds
    a hyphen. *)
Theorem clean_accepts_underscore_with_hyphen :
  letters_numbers_hyphens "my_shop-1" = false
  /\ normalized "my_shop-1" = "my_shop-1"
  /\ clean (rule "my_shop-1" "full" "/store/" true None)
     = (rule "my_shop-1" "full" "/store/" true None, Ok tt).
Proof. repeat split. Qed.

(** C10.  On a rule whose subdomain is empty, [clean] runs the
    configuration checks only: it leaves the rule as it is, its outcome is
    that of the configuration checks, it raises no subdomain error, and it
    passes when the configuration is consistent. *)
Theorem clean_empty_subdomain_spec (self : SubdomainRedirect.t) :
  subdomain self = "" ->
  clean self = (self, configuration_outcome self)
  /\ ~ raises_subdomain_error (snd (clean self))
  /\ (~ inconsistent self -> snd (clean self) = Ok tt).
Proof.
  intros He.
  assert (E : clean self = (self, configuration_outcome self)).
  { rewrite clean_eq.
    apply truthy_false in He. now rewrite He. }
  rewrite E. simpl. split; [reflexivity | split].
  - destruct (inconsistent_dec self) as [Hi | Hi].
    + apply configuration_error_not_subdomain_error.
      now apply configuration_outcome_inconsistent.
    + rewrite (configuration_outcome_consistent self Hi).
      intros [H | H]; discriminate.
  - apply configuration_outcome_consistent.
Qed.

Lemma clean_empty_subdomain_spec_witness :
  clean (rule "" "path_preserve" "" true None)
  = (rule "" "path_preserve" "" true None, Ok tt).
Proof.
  apply (proj1 (clean_empty_subdomain_spec
                  (rule "" "path_preserve" "" true None) eq_refl)).
Defined.

(** ** Normalization at storage and at lookup *)

Lemma clean_subdomain (self : SubdomainRedirect.t) :
  subdomain (fst (clean self)) = normalized (subdomain self).
Proof.
  rewrite clean_eq.
  destruct (Py.truthy (subdomain self)) eqn:Et; cbv zeta.
  - destruct (negb _ && negb _); [reflexivity |].
    destruct (_ <? 2)%nat; reflexivity.
  - apply truthy_false in Et. simpl. now rewrite Et.
Qed.

Lemma clean_is_active (self : SubdomainRedirect.t) :
  is_active (fst (clean self)) = is_active self.
Proof.
  rewrite clean_eq.
  destruct (Py.truthy (subdomain self)); cbv zeta; [| reflexivity].
  destruct (negb _ && negb _); [reflexivity |].
  destruct (_ <? 2)%nat; reflexivity.
Qed.

Lemma resolve_lower (objects : list SubdomainRedirect.t) (s : string) :
  get_redirect_for_subdomain objects s
  = get_redirect_for_subdomain objects (Py.lower s).
Proof. unfold get_redirect_for_subdomain. now rewrite lower_idem. Qed.

Lemma normalized_without_dot (s : string) :
  Py.contains "." s = false -> normalized s = Py.lower s.
Proof. intros H. unfold normalized. now rewrite item0_split_without_sep. Qed.

(** C5, as the code has it.  [clean] leaves in [self.subdomain] the first
    dot-separated label of the given value, lowercased.  The resolver only
    lowercases: it gives the same result on [s] and on the lowercasing of
    [s], hence on [s] and on the normalized form of [s] when [s] has no
    dot.  A rule cleaned from any spelling is found by every lookup whose
    lowercasing is the normalized form of that spelling. *)
Theorem subdomain_normalization_spec :
  (forall self, subdomain (fst (clean self)) = normalized (subdomain self))
  /\ (forall objects s,
        get_redirect_for_subdomain objects s
        = get_redirect_for_subdomain objects (Py.lower s))
  /\ (forall objects s,
        Py.contains "." s = false ->
        get_redirect_for_subdomain objects s
        = get_redirect_for_subdomain objects (normalized s))
  /\ (forall objects self s,
        unique_subdomains objects ->
        In (fst (clean self)) objects ->
        is_active self = true ->
        Py.lower s = normalized (subdomain self) ->
        get_redirect_for_subdomain objects s = Ok (Some (fst (clean self)))).
Proof.
  split; [| split; [| split]].
  - apply clean_subdomain.
  - apply resolve_lower.
  - intros objects s H. rewrite normalized_without_dot by assumption.
    apply resolve_lower.
  - intros objects self s Hu Hin Ha Hs.
    apply resolve_active; try assumption.
    + now rewrite clean_subdomain.
    + now rewrite clean_is_active.
Qed.

Lemma subdomain_normalization_spec_witness :
  get_redirect_for_subdomain example_objects "SHOP"
  = get_redirect_for_subdomain example_objects (normalized "SHOP")
  /\ get_redirect_for_subdomain
       [fst (clean (rule "Shop.example.com" "full" "/store/" true None))]
       "shop"
     = Ok (Some (fst (clean
                        (rule "Shop.example.com" "full" "/store/" true None)))).
Proof.
  split.
  - apply (proj1 (proj2 (proj2 subdomain_normalization_spec))
             example_objects "SHOP").
    reflexivity.
  - apply (proj2 (proj2 (proj2 subdomain_normalization_spec))
             [fst (clean (rule "Shop.example.com" "full" "/store/" true None))]
             (rule "Shop.example.com" "full" "/store/" true None) "shop").
    + unfold unique_subdomains. simpl.
      repeat constructor; simpl; intuition discriminate.
    + simpl. now left.
    + reflexivity.
    + reflexivity.
Defined.

(** C5, as stated, fails: the resolver does not strip a domain suffix.  A
    lookup for Shop.example.com finds nothing in a table where the
    normalized form, shop, is stored and active. *)
Lemma resolve_suffix_counterexample :
  normalized "Shop.example.com" = "shop"
  /\ get_redirect_for_subdomain example_objects "Shop.example.com" = Ok None
  /\ get_redirect_for_subdomain example_objects (normalized "Shop.example.com")
     = Ok (Some shop_rule).
Proof. repeat split. Qed.

(** ** The model's own redirect URL *)

(** C9.  For a FULL rule [get_redirect_url] returns [redirect_path]; its
    result does not depend on the linked object; and where the linked
    object has a canonical location, the interceptor determines that
    location while [get_redirect_url] still returns [redirect_path]. *)
Theorem get_redirect_url_spec (self : SubdomainRedirect.t)
    (request_path : string) :
  (redirect_type self = REDIRECT_TYPE_FULL ->
   get_redirect_url self request_path = redirect_path self)
  /\ (forall target,
        get_redirect_url (set_content_object target self) request_path
        = get_redirect_url self request_path)
  /\ (redirect_type self = REDIRECT_TYPE_FULL ->
      forall url request,
        canonical_location self = Some url ->
        path request = request_path ->
        determine_redirect_path self request = url
        /\ get_redirect_url self request_path = redirect_path self).
Proof.
  split; [| split].
  - unfold get_redirect_url. now intros ->.
  - reflexivity.
  - intros Ht url request Hc _. split.
    + now apply determine_full_canonical.
    + unfold get_redirect_url. now rewrite Ht.
Qed.

Lemma get_redirect_url_spec_witness :
  determine_redirect_path
    (rule "shop" "full" "/store/" true (Some (page "/products/")))
    (request_to "shop.example.com") = "/products/"
  /\ get_redirect_url
       (rule "shop" "full" "/store/" true (Some (page "/products/")))
       "/x/" = "/store/".
Proof.
  apply (proj2 (proj2 (get_redirect_url_spec
                         (rule "shop" "full" "/store/" true
                            (Some (page "/products/")))
                         "/x/"))); reflexivity.
Defined.

(** * Further properties *)

(** ** More on strings *)

Lemma lower_char_eqb_dot (c : ascii) :
  Ascii.eqb (Py.lower_char c) "." = Ascii.eqb c ".".
Proof. destruct c as [[] [] [] [] [] [] [] []]; reflexivity. Qed.

Lemma contains_dot_lower (s : string) :
  Py.contains "." (Py.lower s) = Py.contains "." s.
Proof.
  induction s as [| c s IH]; simpl; [reflexivity |].
  now rewrite lower_char_eqb_dot, IH.
Qed.

(** The first piece of a split holds no separator. *)
Lemma item0_split_contains (sep : ascii) (s : string) :
  Py.contains sep (Py.item0 (Py.split sep s)) = false.
Proof.
  induction s as [| c s IH]; simpl; [reflexivity |].
  destruct (Ascii.eqb c sep) eqn:E; [reflexivity |].
  destruct (Py.split sep s) as [| p ps] eqn:Es.
  - simpl. now rewrite E.
  - simpl in *. now rewrite E, IH.
Qed.

(** The first piece of a split is what precedes the first separator. *)
Lemma item0_split_app (sep : ascii) (h rest : string) :
  Py.contains sep h = false ->
  Py.item0 (Py.split sep (h ++ String sep rest)) = h.
Proof.
  induction h as [| c h IH]; simpl; intros H.
  - now rewrite Ascii.eqb_refl.
  - apply orb_false_iff in H as [Hc Hh]. rewrite Hc.
    specialize (IH Hh).
    destruct (Py.split sep (h ++ String sep rest)) as [| p ps];
      simpl in *; now subst.
Qed.

Lemma normalized_contains_dot (s : string) :
  Py.contains "." (normalized s) = false.
Proof.
  unfold normalized. rewrite contains_dot_lower. apply item0_split_contains.
Qed.

Lemma normalized_lower (s : string) : Py.lower (normalized s) = normalized s.
Proof. unfold normalized. apply lower_idem. Qed.

Lemma normalized_idem (s : string) : normalized (normalized s) = normalized s.
Proof.
  rewrite (normalized_without_dot (normalized s))
    by apply normalized_contains_dot.
  apply normalized_lower.
Qed.

Lemma endswith_longer (s suffix : string) :
  String.length s < String.length suffix -> Py.endswith s suffix = false.
Proof.
  intros H. unfold Py.endswith.
  destruct (Nat.leb_spec (String.length suffix) (String.length s));
    [lia | reflexivity].
Qed.

Lemma lstrip_spaces (spaces s : string) :
  Py.all_chars Py.isspace_char spaces = true ->
  Py.lstrip (spaces ++ s) = Py.lstrip s.
Proof.
  induction spaces as [| c spaces IH]; simpl; [reflexivity |].
  intros H. apply andb_true_iff in H as [Hc Hs]. now rewrite Hc, IH.
Qed.

Lemma rstrip_spaces (spaces : string) :
  Py.all_chars Py.isspace_char spaces = true -> Py.rstrip spaces = "".
Proof.
  induction spaces as [| c spaces IH]; simpl; [reflexivity |].
  intros H. apply andb_true_iff in H as [Hc Hs]. now rewrite (IH Hs), Hc.
Qed.

Lemma rstrip_app_spaces (s spaces : string) :
  ends_unspaced s = true ->
  Py.all_chars Py.isspace_char spaces = true ->
  Py.rstrip (s ++ spaces) = s.
Proof.
  intros Hs Hsp. induction s as [| c s IH]; [discriminate |].
  destruct s as [| d s].
  - simpl in *. rewrite (rstrip_spaces spaces Hsp).
    apply negb_true_iff in Hs. now rewrite Hs.
  - specialize (IH Hs). change ((String c (String d s)) ++ spaces)
      with (String c (String d s ++ spaces)).
    simpl Py.rstrip at 1. simpl in IH. now rewrite IH.
Qed.

(** ** More on validation *)

Lemma set_subdomain_same (self : SubdomainRedirect.t) :
  set_subdomain (subdomain self) self = self.
Proof. now destruct self. Qed.

Lemma clean_state (self : SubdomainRedirect.t) :
  fst (clean self) = set_subdomain (normalized (subdomain self)) self.
Proof.
  rewrite clean_eq.
  destruct (Py.truthy (subdomain self)) eqn:Et; cbv zeta.
  - destruct (negb _ && negb _); [reflexivity |].
    destruct (_ <? 2)%nat; reflexivity.
  - apply truthy_false in Et. simpl. rewrite Et.
    change (normalized "") with "". rewrite <- Et.
    symmetry. apply set_subdomain_same.
Qed.

(** X1.  [clean] changes nothing of a rule but its subdomain, whether it
    raises or not; the subdomain it leaves has no dot and is its own
    lowercasing. *)
Theorem clean_leaves_one_lowercase_label (self : SubdomainRedirect.t) :
  fst (clean self) = set_subdomain (normalized (subdomain self)) self
  /\ content_object (fst (clean self)) = content_object self
  /\ redirect_type (fst (clean self)) = redirect_type self
  /\ redirect_path (fst (clean self)) = redirect_path self
  /\ is_active (fst (clean self)) = is_active self
  /\ Py.contains "." (subdomain (fst (clean self))) = false
  /\ Py.lower (subdomain (fst (clean self))) = subdomain (fst (clean self)).
Proof.
  rewrite clean_state. simpl. repeat split.
  - apply normalized_contains_dot.
  - apply normalized_lower.
Qed.

(** X2.  Cleaning again a rule whose first label is not empty changes
    nothing and ends the same way: [clean] is idempotent on such rules. *)
Theorem clean_idempotent (self : SubdomainRedirect.t) :
  normalized (subdomain self) <> "" ->
  clean (fst (clean self)) = (fst (clean self), snd (clean self)).
Proof.
  intros Hn.
  assert (Hs : Py.truthy (subdomain self) = true).
  { apply truthy_true. intros E. apply Hn. now rewrite E. }
  rewrite clean_state.
  rewrite (clean_eq (set_subdomain _ self)), (clean_eq self).
  simpl subdomain. rewrite normalized_idem, Hs.
  apply truthy_true in Hn. rewrite Hn. cbv zeta. simpl subdomain.
  destruct (negb _ && negb _); [reflexivity |].
  destruct (_ <? 2)%nat; reflexivity.
Qed.

Lemma clean_idempotent_witness :
  clean (fst (clean (rule "Shop.example.com" "full" "/store/" true None)))
  = (rule "shop" "full" "/store/" true None, Ok tt).
Proof.
  rewrite (clean_idempotent
             (rule "Shop.example.com" "full" "/store/" true None)).
  - reflexivity.
  - discriminate.
Defined.

(** X3.  A subdomain that starts with a dot has an empty first label:
    [clean] raises the character error and leaves the subdomain empty, so
    that a second [clean] of the same object skips the subdomain checks
    and ends as the configuration checks do. *)
Theorem clean_again_after_empty_label (self : SubdomainRedirect.t) :
  subdomain self <> "" ->
  normalized (subdomain self) = "" ->
  snd (clean self) = Raise (ValidationError msg_subdomain_chars)
  /\ subdomain (fst (clean self)) = ""
  /\ clean (fst (clean self))
     = (fst (clean self), configuration_outcome self).
Proof.
  intros Hs Hn.
  assert (E : clean self = (set_subdomain "" self,
                            Raise (ValidationError msg_subdomain_chars))).
  { rewrite clean_eq. apply truthy_true in Hs. rewrite Hs. cbv zeta.
    simpl subdomain. now rewrite Hn. }
  rewrite E. simpl. repeat split.
  rewrite clean_eq. reflexivity.
Qed.

Lemma clean_again_after_empty_label_witness :
  snd (clean (rule ".example.com" "full" "/store/" true None))
  = Raise (ValidationError msg_subdomain_chars)
  /\ snd (clean (fst (clean (rule ".example.com" "full" "/store/" true None))))
     = Ok tt.
Proof.
  destruct (clean_again_after_empty_label
              (rule ".example.com" "full" "/store/" true None))
    as (H1 & _ & H3).
  - discriminate.
  - reflexivity.
  - split; [exact H1 | now rewrite H3].
Defined.

Lemma clean_subdomain_guarantee_witness :
  2 <= String.length (normalized "Shop.example.com").
Proof.
  apply (clean_subdomain_guarantee
           (rule "Shop.example.com" "full" "/store/" true None)).
  - discriminate.
  - reflexivity.
Defined.

Lemma clean_rejects_without_hyphen_witness :
  snd (clean (rule "my_shop" "full" "/store/" true None))
  = Raise (ValidationError msg_subdomain_chars)
  /\ snd (clean (rule ".example.com" "full" "/store/" true None))
     = Raise (ValidationError msg_subdomain_chars).
Proof.
  split.
  - apply (clean_rejects_without_hyphen
             (rule "my_shop" "full" "/store/" true None)).
    + discriminate.
    + reflexivity.
    + right. reflexivity.
  - apply (clean_rejects_without_hyphen
             (rule ".example.com" "full" "/store/" true None)).
    + discriminate.
    + reflexivity.
    + left. reflexivity.
Defined.

Lemma clean_rejects_short_witness :
  raises_subdomain_error
    (snd (clean (rule "a.example.com" "full" "/store/" true None))).
Proof.
  apply (clean_rejects_short
           (rule "a.example.com" "full" "/store/" true None)).
  - discriminate.
  - simpl. lia.
Defined.

(** ** More on the interceptor *)

Lemma lower_char_eqb_colon (c : ascii) :
  Ascii.eqb (Py.lower_char c) ":" = Ascii.eqb c ":".
Proof. destruct c as [[] [] [] [] [] [] [] []]; reflexivity. Qed.

Lemma contains_colon_lower (s : string) :
  Py.contains ":" (Py.lower s) = Py.contains ":" s.
Proof.
  induction s as [| c s IH]; simpl; [reflexivity |].
  now rewrite lower_char_eqb_colon, IH.
Qed.

(** The interceptor reads the hostname, the path and the scheme of a
    request, and hands the request to the rest of the chain. *)
Lemma call_congruence (settings : Settings)
    (objects : list SubdomainRedirect.t)
    (get_response : HttpRequest -> result HttpResponse)
    (request1 request2 : HttpRequest) :
  hostname_of request1 = hostname_of request2 ->
  path request1 = path request2 ->
  is_secure request1 = is_secure request2 ->
  get_response request1 = get_response request2 ->
  __call__ settings objects get_response request1
  = __call__ settings objects get_response request2.
Proof.
  intros Hh Hp Hs Hg.
  unfold __call__, redirect_url_of, determine_redirect_path, protocol_of.
  now rewrite Hh, Hp, Hs, Hg.
Qed.

(** X7.  The port of the Host header and the case of its letters do not
    count: a host without colon, with or without a port after it, gives the
    lowercased host as hostname, and the interceptor answers as for the
    lowercased host without port (the rest of the chain being the same). *)
Theorem hostname_ignores_port_and_case (host port request_path : string)
    (secure : bool) :
  Py.contains ":" host = false ->
  hostname_of {| get_host := host ++ ":" ++ port; path := request_path;
                 is_secure := secure |} = Py.lower host
  /\ hostname_of {| get_host := host; path := request_path;
                    is_secure := secure |} = Py.lower host
  /\ forall settings objects downstream_response,
       __call__ settings objects (fun _ => downstream_response)
         {| get_host := host ++ ":" ++ port; path := request_path;
            is_secure := secure |}
       = __call__ settings objects (fun _ => downstream_response)
           {| get_host := Py.lower host; path := request_path;
              is_secure := secure |}.
Proof.
  intros Hc.
  assert (H1 : hostname_of {| get_host := host ++ ":" ++ port;
                              path := request_path; is_secure := secure |}
               = Py.lower host).
  { unfold hostname_of. simpl get_host.
    change (host ++ ":" ++ port) with (host ++ String ":" port).
    now rewrite item0_split_app. }
  assert (H2 : forall h, Py.contains ":" h = false ->
                 hostname_of {| get_host := h; path := request_path;
                                is_secure := secure |} = Py.lower h).
  { intros h Hh. unfold hostname_of. simpl get_host.
    now rewrite item0_split_without_sep. }
  split; [exact H1 | split; [now apply H2 |]].
  intros settings objects downstream_response.
  apply call_congruence; try reflexivity.
  rewrite H1, H2, lower_idem; [reflexivity |].
  now rewrite contains_colon_lower.
Qed.

Lemma hostname_ignores_port_and_case_witness :
  hostname_of (request_to "Shop.Example.com:8443") = "shop.example.com".
Proof.
  apply (hostname_ignores_port_and_case "Shop.Example.com" "8443" "/x/" true).
  reflexivity.
Defined.

(** X8.  Whatever the main domain is, a request for the main domain itself
    or for its www host is handed to the rest of the chain: the target of a
    redirect is never redirected again. *)
Theorem main_domain_and_www_pass (settings : Settings)
    (objects : list SubdomainRedirect.t)
    (get_response : HttpRequest -> result HttpResponse)
    (request : HttpRequest) :
  hostname_of request = main_domain_of settings
  \/ hostname_of request = "www." ++ main_domain_of settings ->
  __call__ settings objects get_response request = get_response request.
Proof.
  intros [H | H].
  - apply call_other_host. unfold under_main_domain. rewrite H.
    apply endswith_longer. simpl. lia.
  - apply call_skipped_label. right. unfold candidate_of, subdomain_of.
    rewrite H.
    change ("www." ++ main_domain_of settings)
      with ("www" ++ "." ++ main_domain_of settings).
    apply rsplit1_app.
Qed.

Lemma main_domain_and_www_pass_witness :
  __call__ {| MAIN_DOMAIN := Some "ghostjam.com" |} example_objects downstream
    (request_to "WWW.ghostjam.com")
  = downstream (request_to "WWW.ghostjam.com").
Proof.
  apply (main_domain_and_www_pass {| MAIN_DOMAIN := Some "ghostjam.com" |}
           example_objects downstream (request_to "WWW.ghostjam.com")).
  right. reflexivity.
Defined.

Lemma filter_no_active (k : string) (l : list SubdomainRedirect.t) :
  (forall row, In row l -> subdomain row = k -> is_active row = false) ->
  filter (matching k true) l = [].
Proof.
  induction l as [| x l IH]; simpl; intros H; [reflexivity |].
  unfold matching at 1.
  destruct (String.eqb_spec (subdomain x) k) as [E | _]; simpl.
  - rewrite (H x (or_introl eq_refl) E). simpl.
    apply IH. intros row Hin. apply H. now right.
  - apply IH. intros row Hin. apply H. now right.
Qed.

Lemma resolve_no_active (objects : list SubdomainRedirect.t) (s : string) :
  (forall row, In row objects -> subdomain row = Py.lower s ->
               is_active row = false) ->
  get_redirect_for_subdomain objects s = Ok None.
Proof.
  intros H. unfold get_redirect_for_subdomain, objects_get.
  now rewrite filter_no_active.
Qed.

Lemma call_no_active (settings : Settings)
    (objects : list SubdomainRedirect.t)
    (get_response : HttpRequest -> result HttpResponse)
    (request : HttpRequest) :
  (forall row, In row objects ->
               subdomain row = Py.lower (candidate_of settings request) ->
               is_active row = false) ->
  __call__ settings objects get_response request = get_response request.
Proof.
  intros H.
  destruct (under_main_domain settings request) eqn:He;
    [| now apply call_other_host].
  destruct (string_dec (candidate_of settings request) "") as [Hn | Hn];
    [apply call_skipped_label; now left |].
  destruct (string_dec (candidate_of settings request) "www") as [Hw | Hw];
    [apply call_skipped_label; now right |].
  rewrite call_lookup by assumption.
  now rewrite resolve_no_active.
Qed.

(** X9.  Without an active row stored under the lowercased candidate, the
    interceptor hands the request to the rest of the chain; no assumption
    on the table is needed, so an empty table and a table of inactive rows
    never redirect. *)
Theorem no_active_rule_no_redirect (settings : Settings)
    (objects : list SubdomainRedirect.t)
    (get_response : HttpRequest -> result HttpResponse)
    (request : HttpRequest) :
  (forall row, In row objects ->
               subdomain row = Py.lower (candidate_of settings request) ->
               is_active row = false) ->
  __call__ settings objects get_response request = get_response request.
Proof. apply call_no_active. Qed.

Lemma no_active_rule_no_redirect_witness :
  __call__ example_settings example_objects downstream
    (request_to "blog.example.com")
  = downstream (request_to "blog.example.com").
Proof.
  apply (no_active_rule_no_redirect example_settings example_objects
           downstream (request_to "blog.example.com")).
  simpl. intros row [<- | [<- | []]]; [discriminate | reflexivity].
Defined.

(** X10.  A host with more than one label before the main domain is never
    redirected by a table whose subdomains have no dot, and every table of
    rules that went through [clean] is such a table. *)
Theorem multi_label_host_never_redirected (settings : Settings)
    (get_response : HttpRequest -> result HttpResponse)
    (request : HttpRequest) :
  Py.contains "." (candidate_of settings request) = true ->
  (forall objects,
     (forall row, In row objects -> Py.contains "." (subdomain row) = false) ->
     __call__ settings objects get_response request = get_response request)
  /\ (forall saved,
        __call__ settings (map (fun self => fst (clean self)) saved)
          get_response request
        = get_response request).
Proof.
  intros Hd.
  assert (G : forall objects,
     (forall row, In row objects -> Py.contains "." (subdomain row) = false) ->
     __call__ settings objects get_response request = get_response request).
  { intros objects Hrows. apply call_no_active. intros row Hin E.
    specialize (Hrows row Hin).
    rewrite E, contains_dot_lower, Hd in Hrows. discriminate. }
  split; [exact G |].
  intros saved. apply G. intros row Hin.
  apply in_map_iff in Hin as (self & <- & _).
  rewrite clean_state. apply normalized_contains_dot.
Qed.

Lemma multi_label_host_never_redirected_witness :
  __call__ example_settings
    (map (fun self => fst (clean self))
         [rule "a.b" "full" "/both/" true None])
    downstream request_a_b
  = downstream request_a_b.
Proof.
  apply (proj2 (multi_label_host_never_redirected example_settings
                  downstream request_a_b eq_refl)).
Defined.

Lemma clean_ok_label_nonempty (self : SubdomainRedirect.t) :
  subdomain self <> "" -> snd (clean self) = Ok tt ->
  normalized (subdomain self) <> "".
Proof.
  intros Hs Hok E. revert Hok. rewrite clean_eq.
  apply truthy_true in Hs. rewrite Hs. cbv zeta. simpl subdomain.
  rewrite E. discriminate.
Qed.

(** X11.  A rule that [clean] accepted, saved as [clean] left it in a table
    with unique subdomains, is served: when it is active and its label is
    not "www", a request for that label under the main domain gets the
    permanent redirect to the scheme, the main domain and the path
    determined for the rule. *)
Theorem cleaned_rule_is_served (settings : Settings)
    (objects : list SubdomainRedirect.t)
    (get_response : HttpRequest -> result HttpResponse)
    (request : HttpRequest) (self : SubdomainRedirect.t) :
  subdomain self <> "" ->
  snd (clean self) = Ok tt ->
  is_active self = true ->
  normalized (subdomain self) <> "www" ->
  unique_subdomains objects ->
  In (fst (clean self)) objects ->
  hostname_of request
  = normalized (subdomain self) ++ "." ++ main_domain_of settings ->
  __call__ settings objects get_response request
  = Ok (HttpResponsePermanentRedirect
          (protocol_of request ++ "://" ++ main_domain_of settings
             ++ determine_redirect_path (fst (clean self)) request)).
Proof.
  intros Hs Hok Ha Hw Hu Hin Hh.
  assert (Hc : candidate_of settings request = normalized (subdomain self)).
  { unfold candidate_of, subdomain_of. rewrite Hh. apply rsplit1_app. }
  apply call_redirect.
  - unfold under_main_domain. rewrite Hh. apply endswith_app.
  - rewrite Hc. now apply clean_ok_label_nonempty.
  - now rewrite Hc.
  - rewrite Hc. apply resolve_active; try assumption.
    + now rewrite clean_subdomain, normalized_lower.
    + now rewrite clean_is_active.
Qed.

Lemma cleaned_rule_is_served_witness :
  __call__ example_settings
    [fst (clean (rule "Shop.example.com" "full" "/store/" true None))]
    downstream (request_to "SHOP.example.com:443")
  = Ok (HttpResponsePermanentRedirect "https://example.com/store/").
Proof.
  apply (cleaned_rule_is_served example_settings
           [fst (clean (rule "Shop.example.com" "full" "/store/" true None))]
           downstream (request_to "SHOP.example.com:443")
           (rule "Shop.example.com" "full" "/store/" true None)).
  - discriminate.
  - reflexivity.
  - reflexivity.
  - discriminate.
  - unfold unique_subdomains. simpl.
    repeat constructor; simpl; intuition discriminate.
  - simpl. now left.
  - reflexivity.
Defined.

Lemma filter_two (k : string) (r1 r2 : SubdomainRedirect.t)
    (l1 l2 l3 : list SubdomainRedirect.t) :
  matching k true r1 = true -> matching k true r2 = true ->
  exists x y rest,
    filter (matching k true) (l1 ++ r1 :: l2 ++ r2 :: l3)%list
    = x :: y :: rest.
Proof.
  intros H1 H2.
  rewrite filter_app. simpl. rewrite H1, filter_app. simpl. rewrite H2.
  destruct (filter (matching k true) l1) as [| a [| b l]]; simpl.
  - destruct (filter (matching k true) l2) as [| c l']; simpl;
      eexists _, _, _; reflexivity.
  - eexists _, _, _; reflexivity.
  - eexists _, _, _; reflexivity.
Qed.

(** X12.  When two active rows are stored under the same subdomain, the
    resolver raises [MultipleObjectsReturned] for it, and the interceptor
    lets the exception through instead of answering the request. *)
Theorem duplicate_rows_raise (settings : Settings)
    (get_response : HttpRequest -> result HttpResponse)
    (request : HttpRequest) (r1 r2 : SubdomainRedirect.t)
    (l1 l2 l3 : list SubdomainRedirect.t) (s : string) :
  subdomain r1 = Py.lower s -> subdomain r2 = Py.lower s ->
  is_active r1 = true -> is_active r2 = true ->
  get_redirect_for_subdomain (l1 ++ r1 :: l2 ++ r2 :: l3)%list s
  = Raise MultipleObjectsReturned
  /\ (under_main_domain settings request = true ->
      candidate_of settings request = s -> s <> "" -> s <> "www" ->
      __call__ settings (l1 ++ r1 :: l2 ++ r2 :: l3)%list get_response request
      = Raise MultipleObjectsReturned).
Proof.
  intros E1 E2 A1 A2.
  assert (R : get_redirect_for_subdomain (l1 ++ r1 :: l2 ++ r2 :: l3)%list s
              = Raise MultipleObjectsReturned).
  { unfold get_redirect_for_subdomain, objects_get.
    destruct (filter_two (Py.lower s) r1 r2 l1 l2 l3) as (x & y & rest & ->);
      [| | reflexivity];
      unfold matching; rewrite ?E1, ?E2, ?A1, ?A2, String.eqb_refl;
      reflexivity. }
  split; [exact R |].
  intros He Hc Hn Hw. rewrite call_lookup; rewrite ?Hc; try assumption.
  now rewrite R.
Qed.

Lemma duplicate_rows_raise_witness :
  __call__ example_settings
    ([] ++ shop_rule :: [blog_rule]
        ++ rule "shop" "path_preserve" "" true None :: [])%list
    downstream (request_to "shop.example.com")
  = Raise MultipleObjectsReturned.
Proof.
  apply (duplicate_rows_raise example_settings downstream
           (request_to "shop.example.com") shop_rule
           (rule "shop" "path_preserve" "" true None)
           [] [blog_rule] [] "shop");
    try reflexivity; discriminate.
Defined.

(** X13.  A rule whose [redirect_type] is neither of the two choices is
    treated as path preserving by the interceptor and by
    [get_redirect_url], with or without a [redirect_path], and [clean]
    raises no configuration error for it. *)
Theorem other_redirect_type_preserves_path (self : SubdomainRedirect.t)
    (request : HttpRequest) :
  redirect_type self <> REDIRECT_TYPE_FULL ->
  redirect_type self <> REDIRECT_TYPE_PATH_PRESERVE ->
  determine_redirect_path self request = path request
  /\ get_redirect_url self (path request) = path request
  /\ ~ raises_configuration_error (snd (clean self)).
Proof.
  intros Hf Hp. split; [now apply determine_not_full | split].
  - unfold get_redirect_url. apply String.eqb_neq in Hf. now rewrite Hf.
  - assert (Hc : configuration_outcome self = Ok tt).
    { apply configuration_outcome_consistent. unfold inconsistent. tauto. }
    destruct (clean_outcome self) as [Hs | E].
    + intros Hr. now apply (configuration_error_not_subdomain_error _ Hr).
    + rewrite E, Hc. intros [H | H]; discriminate.
Qed.

Lemma other_redirect_type_preserves_path_witness :
  determine_redirect_path (rule "shop" "temporary" "/store/" true None)
    (request_to "shop.example.com") = "/x/".
Proof.
  apply (other_redirect_type_preserves_path
           (rule "shop" "temporary" "/store/" true None)
           (request_to "shop.example.com")); discriminate.
Defined.

(** X14.  The interceptor and [get_redirect_url] determine the same path
    for every rule that is not FULL, whatever is linked to it, and for
    every FULL rule without a canonical location of a linked object. *)
Theorem interceptor_agrees_with_get_redirect_url
    (self : SubdomainRedirect.t) (request : HttpRequest) :
  redirect_type self <> REDIRECT_TYPE_FULL
  \/ canonical_location self = None ->
  determine_redirect_path self request
  = get_redirect_url self (path request).
Proof.
  unfold get_redirect_url.
  destruct (String.eqb_spec (redirect_type self) REDIRECT_TYPE_FULL)
    as [Ef | Ef].
  - intros [H | H]; [contradiction | now apply determine_full_literal].
  - intros _. now apply determine_not_full.
Qed.

Lemma interceptor_agrees_with_get_redirect_url_witness :
  determine_redirect_path
    (rule "blog" "path_preserve" "" true (Some (page "/products/")))
    (request_to "blog.example.com")
  = get_redirect_url
      (rule "blog" "path_preserve" "" true (Some (page "/products/")))
      "/x/".
Proof.
  apply (interceptor_agrees_with_get_redirect_url
           (rule "blog" "path_preserve" "" true (Some (page "/products/")))
           (request_to "blog.example.com")).
  left. discriminate.
Defined.

(** ** The admin IP restriction *)

Section AdminProperties.

Context {ipaddress : IPAddress}.

Lemma parse_each_In {A : Type} (parse : string -> option A)
    (entries : list string) (object : A) :
  In object (Admin.parse_each parse entries)
  <-> exists entry, In entry entries /\ parse entry = Some object.
Proof.
  induction entries as [| e entries IH]; simpl.
  - split; [contradiction | now intros (entry & [] & _)].
  - destruct (parse e) as [o |] eqn:Ep; simpl; rewrite IH; split.
    + intros [<- | (entry & Hin & Hp)]; [now exists e; auto |].
      exists entry. auto.
    + intros (entry & [<- | Hin] & Hp).
      * left. congruence.
      * right. now exists entry.
    + intros (entry & Hin & Hp). exists entry. auto.
    + intros (entry & [<- | Hin] & Hp); [congruence |]. now exists entry.
Qed.

Lemma is_ip_allowed_listed (settings : AdminSettings)
    (client_ip : option string) :
  Admin.is_ip_allowed (Admin.__init__ settings) client_ip = true
  <-> listed settings client_ip.
Proof.
  unfold Admin.is_ip_allowed, listed, Admin.__init__. simpl.
  destruct (ip_address client_ip) as [client |];
    [| split; [discriminate | now intros (c & H & _)]].
  split.
  - intros H. exists client. split; [reflexivity |].
    destruct (existsb (address_eqb client) _) eqn:Ei.
    + left. apply existsb_exists in Ei as (allowed & Hin & Heq).
      apply parse_each_In in Hin as (entry & Hin & Hp).
      now exists entry, allowed.
    + right. apply existsb_exists in H as (net & Hin & Hc).
      apply parse_each_In in Hin as (entry & Hin & Hp).
      now exists entry, net.
  - intros (c & [= <-] & [(entry & allowed & Hin & Hp & Heq)
                         | (entry & net & Hin & Hp & Hc)]).
    + assert (E : existsb (address_eqb client)
                    (Admin.parse_each (fun ip => ip_address (Some ip))
                       (getattr (ADMIN_ALLOWED_IPS settings) [])) = true).
      { apply existsb_exists. exists allowed. split; [| assumption].
        apply parse_each_In. now exists entry. }
      now rewrite E.
    + destruct (existsb (address_eqb client) _); [reflexivity |].
      apply existsb_exists. exists net. split; [| assumption].
      apply parse_each_In. now exists entry.
Qed.

Lemma listed_dec (settings : AdminSettings) (client_ip : option string) :
  {listed settings client_ip} + {~ listed settings client_ip}.
Proof.
  destruct (Admin.is_ip_allowed (Admin.__init__ settings) client_ip) eqn:E.
  - left. now apply is_ip_allowed_listed.
  - right. intros H. apply is_ip_allowed_listed in H. congruence.
Qed.

Lemma listed_not_empty (settings : AdminSettings)
    (client_ip : option string) :
  listed settings client_ip ->
  match getattr (ADMIN_ALLOWED_IPS settings) [] with
  | [] => true | _ :: _ => false end
  && match getattr (ADMIN_ALLOWED_NETWORKS settings) [] with
     | [] => true | _ :: _ => false end = false.
Proof.
  intros (client & _ & [(entry & _ & Hin & _) | (entry & _ & Hin & _)]).
  - destruct (getattr (ADMIN_ALLOWED_IPS settings) []);
      [contradiction | reflexivity].
  - destruct (getattr (ADMIN_ALLOWED_NETWORKS settings) []);
      [contradiction | apply andb_false_r].
Qed.

(** X15.  The decision of the admin restriction.  A request outside
    /admin/, or any request when the restriction is switched off, goes to
    the rest of the chain.  Otherwise the request goes to the rest of the
    chain when the client address is on the lists of the settings, and
    [PermissionDenied] is raised when it is not. *)
Theorem admin_decision (settings : AdminSettings)
    (get_response : WSGIRequest -> result HttpResponse)
    (request : WSGIRequest) :
  (restricted settings request = false ->
   Admin.__call__ settings (Admin.__init__ settings) get_response request
   = Returned (get_response request))
  /\ (restricted settings request = true ->
      listed settings (Admin.get_client_ip request) ->
      Admin.__call__ settings (Admin.__init__ settings) get_response request
      = Returned (get_response request))
  /\ (restricted settings request = true ->
      ~ listed settings (Admin.get_client_ip request) ->
      exists message,
        Admin.__call__ settings (Admin.__init__ settings) get_response request
        = PermissionDenied message).
Proof.
  unfold restricted, Admin.__call__.
  destruct (Py.startswith (path (base request)) "/admin/");
    [| repeat split; try discriminate; reflexivity].
  destruct (getattr (ADMIN_IP_RESTRICTION_ENABLED settings) true); simpl;
    [| repeat split; try discriminate; reflexivity].
  split; [discriminate | split].
  - intros _ Hl. rewrite (listed_not_empty _ _ Hl).
    apply is_ip_allowed_listed in Hl. now rewrite Hl.
  - intros _ Hn.
    destruct (_ && _); [now eexists |].
    destruct (Admin.is_ip_allowed (Admin.__init__ settings)
                (Admin.get_client_ip request)) eqn:E; [| now eexists].
    apply is_ip_allowed_listed in E. contradiction.
Qed.

(** X16.  Closed by default: when the restriction is not switched off and
    no entry of the two lists parses (none is set, they are empty, or they
    hold only malformed entries), every request under /admin/ raises
    [PermissionDenied], whatever its headers. *)
Theorem admin_closed_by_default (settings : AdminSettings)
    (get_response : WSGIRequest -> result HttpResponse)
    (request : WSGIRequest) :
  restricted settings request = true ->
  (forall entry, In entry (getattr (ADMIN_ALLOWED_IPS settings) []) ->
                 ip_address (Some entry) = None) ->
  (forall entry, In entry (getattr (ADMIN_ALLOWED_NETWORKS settings) []) ->
                 ip_network entry = None) ->
  exists message,
    Admin.__call__ settings (Admin.__init__ settings) get_response request
    = PermissionDenied message.
Proof.
  intros Hr Hips Hnets.
  assert (Hn : ~ listed settings (Admin.get_client_ip request)).
  { intros (client & _ & [(entry & allowed & Hin & Hp & _)
                         | (entry & net & Hin & Hp & _)]).
    - rewrite (Hips entry Hin) in Hp. discriminate.
    - rewrite (Hnets entry Hin) in Hp. discriminate. }
  unfold restricted in Hr. unfold Admin.__call__.
  apply andb_true_iff in Hr as [-> ->]. simpl.
  destruct (_ && _); [now eexists |].
  destruct (Admin.is_ip_allowed (Admin.__init__ settings)
              (Admin.get_client_ip request)) eqn:E; [| now eexists].
  apply is_ip_allowed_listed in E. contradiction.
Qed.

End AdminProperties.

Lemma admin_decision_witness :
  Admin.__call__ office_settings (Admin.__init__ office_settings)
    admin_downstream
    (admin_request "/admin/login/" [("REMOTE_ADDR", "10.20.30.40")])
  = Returned (admin_downstream
                (admin_request "/admin/login/"
                   [("REMOTE_ADDR", "10.20.30.40")]))
  /\ exists message,
       Admin.__call__ office_settings (Admin.__init__ office_settings)
         admin_downstream
         (admin_request "/admin/login/" [("REMOTE_ADDR", "192.0.2.1")])
       = PermissionDenied message.
Proof.
  split.
  - apply (proj1 (proj2 (admin_decision office_settings admin_downstream
                           (admin_request "/admin/login/"
                              [("REMOTE_ADDR", "10.20.30.40")])))).
    + reflexivity.
    + exists 169090600%N. split; [reflexivity |].
      right. exists "10.0.0.0/8", (167772160%N, 24%N).
      repeat split. simpl. now left.
  - apply (proj2 (proj2 (admin_decision office_settings admin_downstream
                           (admin_request "/admin/login/"
                              [("REMOTE_ADDR", "192.0.2.1")])))).
    + reflexivity.
    + intros H. apply is_ip_allowed_listed in H. discriminate.
Defined.

Lemma admin_closed_by_default_witness :
  exists message,
    Admin.__call__ unset_settings (Admin.__init__ unset_settings)
      admin_downstream
      (admin_request "/admin/" [("REMOTE_ADDR", "127.0.0.1")])
    = PermissionDenied message.
Proof.
  apply (admin_closed_by_default unset_settings admin_downstream
           (admin_request "/admin/" [("REMOTE_ADDR", "127.0.0.1")])).
  - reflexivity.
  - simpl. contradiction.
  - simpl. contradiction.
Defined.

(** ** The client address *)

Lemma contains_app (c : ascii) (a b : string) :
  Py.contains c (a ++ b) = Py.contains c a || Py.contains c b.
Proof.
  induction a as [| d a IH]; simpl; [reflexivity |].
  now rewrite IH, orb_assoc.
Qed.

Lemma spaces_without_comma (spaces : string) :
  Py.all_chars Py.isspace_char spaces = true ->
  Py.contains "," spaces = false.
Proof.
  induction spaces as [| c spaces IH]; simpl; [reflexivity |].
  intros H. apply andb_true_iff in H as [Hc Hs]. rewrite (IH Hs).
  destruct (Ascii.eqb_spec c ",") as [-> | _]; [discriminate | reflexivity].
Qed.

Lemma lstrip_unspaced (s : string) :
  starts_unspaced s = true -> Py.lstrip s = s.
Proof.
  destruct s as [| c s]; simpl; [discriminate |].
  intros H. apply negb_true_iff in H. now rewrite H.
Qed.

Lemma app_truthy (a b c : string) :
  starts_unspaced b = true -> Py.truthy (a ++ b ++ c) = true.
Proof.
  intros H. apply truthy_true.
  destruct a; [destruct b; [discriminate |] |]; discriminate.
Qed.

(** The first entry of a comma-separated header, stripped. *)
Lemma first_forwarded (spaces1 first spaces2 tail : string) :
  Py.all_chars Py.isspace_char spaces1 = true ->
  Py.all_chars Py.isspace_char spaces2 = true ->
  starts_unspaced first = true -> ends_unspaced first = true ->
  Py.contains "," first = false ->
  tail = "" \/ (exists rest, tail = String "," rest) ->
  Py.strip (Py.item0 (Py.split "," (spaces1 ++ first ++ spaces2 ++ tail)))
  = first.
Proof.
  intros H1 H2 Hs He Hc Ht.
  assert (Hno : Py.contains "," (spaces1 ++ first ++ spaces2) = false).
  { rewrite !contains_app, Hc, !spaces_without_comma by assumption.
    reflexivity. }
  assert (E : Py.item0 (Py.split "," (spaces1 ++ first ++ spaces2 ++ tail))
              = spaces1 ++ first ++ spaces2).
  { destruct Ht as [-> | (rest & ->)].
    - replace (spaces2 ++ "") with spaces2
        by (clear; induction spaces2; simpl; congruence).
      now apply item0_split_without_sep.
    - replace (spaces1 ++ first ++ spaces2 ++ String "," rest)
        with ((spaces1 ++ first ++ spaces2) ++ String "," rest).
      + now apply item0_split_app.
      + clear. induction spaces1 as [| c s IH]; simpl.
        * induction first as [| c f IHf]; simpl; [reflexivity |].
          now rewrite IHf.
        * now rewrite IH. }
  rewrite E. unfold Py.strip.
  rewrite lstrip_spaces by assumption.
  rewrite lstrip_unspaced
    by (destruct first; [discriminate | exact Hs]).
  now apply rstrip_app_spaces.
Qed.

(** X17.  Which header names the client.  CF-Connecting-IP, when it is
    there and not empty, is the client address.  Otherwise a non-empty
    X-Forwarded-For gives its first comma-separated entry, with the white
    space around it removed, and the entries after it are not read.
    Otherwise a non-empty X-Real-IP is the client address, and otherwise
    REMOTE_ADDR, set or not. *)
Theorem client_ip_precedence (request : WSGIRequest) :
  (forall cf_ip,
     Py.dict_get "HTTP_CF_CONNECTING_IP" (META request) = Some cf_ip ->
     cf_ip <> "" ->
     Admin.get_client_ip request = Some cf_ip)
  /\ (Py.truthy_opt (Py.dict_get "HTTP_CF_CONNECTING_IP" (META request))
      = false ->
      forall spaces1 first spaces2 tail,
        Py.dict_get "HTTP_X_FORWARDED_FOR" (META request)
        = Some (spaces1 ++ first ++ spaces2 ++ tail) ->
        Py.all_chars Py.isspace_char spaces1 = true ->
        Py.all_chars Py.isspace_char spaces2 = true ->
        starts_unspaced first = true -> ends_unspaced first = true ->
        Py.contains "," first = false ->
        tail = "" \/ (exists rest, tail = String "," rest) ->
        Admin.get_client_ip request = Some first)
  /\ (Py.truthy_opt (Py.dict_get "HTTP_CF_CONNECTING_IP" (META request))
      = false ->
      Py.truthy_opt (Py.dict_get "HTTP_X_FORWARDED_FOR" (META request))
      = false ->
      (forall real_ip,
         Py.dict_get "HTTP_X_REAL_IP" (META request) = Some real_ip ->
         real_ip <> "" ->
         Admin.get_client_ip request = Some real_ip)
      /\ (Py.truthy_opt (Py.dict_get "HTTP_X_REAL_IP" (META request))
          = false ->
          Admin.get_client_ip request
          = Py.dict_get "REMOTE_ADDR" (META request))).
Proof.
  unfold Admin.get_client_ip. split; [| split].
  - intros cf_ip -> Hn. simpl. apply truthy_true in Hn. now rewrite Hn.
  - intros -> spaces1 first spaces2 tail -> H1 H2 Hs He Hc Ht.
    simpl. rewrite app_truthy by assumption. simpl.
    now rewrite first_forwarded.
  - intros -> ->. split.
    + intros real_ip -> Hn. simpl. apply truthy_true in Hn. now rewrite Hn.
    + now intros ->.
Qed.

Lemma client_ip_precedence_witness :
  Admin.get_client_ip
    (admin_request "/admin/"
       [("REMOTE_ADDR", "10.0.0.1");
        ("HTTP_X_FORWARDED_FOR", "  203.0.113.7 , 10.0.0.1");
        ("HTTP_CF_CONNECTING_IP", "")])
  = Some "203.0.113.7".
Proof.
  apply (proj1 (proj2 (client_ip_precedence
                         (admin_request "/admin/"
                            [("REMOTE_ADDR", "10.0.0.1");
                             ("HTTP_X_FORWARDED_FOR",
                              "  203.0.113.7 , 10.0.0.1");
                             ("HTTP_CF_CONNECTING_IP", "")])))
           eq_refl "  " "203.0.113.7" " " ", 10.0.0.1");
    try reflexivity.
  right. now exists " 10.0.0.1".
Defined.

(** X18.  With a non-empty CF-Connecting-IP, the restriction decides on
    that header alone: two requests under /admin/ that carry the same
    value are both let through or both denied, with the same message,
    whatever X-Forwarded-For, X-Real-IP and REMOTE_ADDR say. *)
Theorem admin_decides_on_cf_header {ipaddress : IPAddress}
    (settings : AdminSettings)
    (get_response : WSGIRequest -> result HttpResponse)
    (request1 request2 : WSGIRequest) (cf_ip : string) :
  cf_ip <> "" ->
  Py.dict_get "HTTP_CF_CONNECTING_IP" (META request1) = Some cf_ip ->
  Py.dict_get "HTTP_CF_CONNECTING_IP" (META request2) = Some cf_ip ->
  Py.startswith (path (base request1)) "/admin/" = true ->
  Py.startswith (path (base request2)) "/admin/" = true ->
  (forall message,
     Admin.__call__ settings (Admin.__init__ settings) get_response request1
     = PermissionDenied message
     <-> Admin.__call__ settings (Admin.__init__ settings) get_response
           request2
         = PermissionDenied message)
  /\ (Admin.__call__ settings (Admin.__init__ settings) get_response request1
      = Returned (get_response request1)
      <-> Admin.__call__ settings (Admin.__init__ settings) get_response
            request2
          = Returned (get_response request2)).
Proof.
  intros Hn H1 H2 P1 P2.
  assert (E1 : Admin.get_client_ip request1 = Some cf_ip).
  { unfold Admin.get_client_ip. rewrite H1. simpl.
    apply truthy_true in Hn. now rewrite Hn. }
  assert (E2 : Admin.get_client_ip request2 = Some cf_ip).
  { unfold Admin.get_client_ip. rewrite H2. simpl.
    apply truthy_true in Hn. now rewrite Hn. }
  unfold Admin.__call__. rewrite P1, P2, E1, E2.
  destruct (negb (getattr (ADMIN_IP_RESTRICTION_ENABLED settings) true)).
  - split; [intros message |]; split; intros H; try discriminate;
      reflexivity.
  - destruct (_ && _); [split; [intros message |]; split; intros H;
                          try discriminate; assumption |].
    destruct (negb _); split; try intros message; split; intros H;
      try discriminate; try assumption; reflexivity.
Qed.

Lemma admin_decides_on_cf_header_witness :
  Admin.__call__ office_settings (Admin.__init__ office_settings)
    admin_downstream
    (admin_request "/admin/"
       [("HTTP_CF_CONNECTING_IP", "203.0.113.7");
        ("REMOTE_ADDR", "192.0.2.1")])
  = Returned (admin_downstream
                (admin_request "/admin/"
                   [("HTTP_CF_CONNECTING_IP", "203.0.113.7");
                    ("REMOTE_ADDR", "192.0.2.1")])).
Proof.
  apply (proj2 (admin_decides_on_cf_header office_settings admin_downstream
                  (admin_request "/admin/"
                     [("HTTP_CF_CONNECTING_IP", "203.0.113.7")])
                  (admin_request "/admin/"
                     [("HTTP_CF_CONNECTING_IP", "203.0.113.7");
                      ("REMOTE_ADDR", "192.0.2.1")])
                  "203.0.113.7"
                  ltac:(discriminate) eq_refl eq_refl eq_refl eq_refl)).
  reflexivity.
Defined.
